(** * Colour-limit handling of vispy's scalable textures

    A shallow embedding of [vispy/visuals/_scalable_textures.py]: the
    mixin classes that keep a texture's colour limits ([clim]), its
    recorded data limits and its internal format consistent across data
    uploads, with the properties of the module proved on the embedding.

    Python objects are explicit values, exceptions are results, and the
    attributes of [self], the arrays reachable from the caller and the
    warnings emitted so far are threaded through a state monad.
    NumPy's float32 and float64 arithmetic is IEEE 754 arithmetic as
    specified by [SpecFloat] at precisions 24 and 53; where Python and
    NumPy scalars mix, the result types are those of NumPy 1.x. *)

From Stdlib Require Import ZArith Bool List String Ascii Lia.
From Stdlib Require Import Floats.SpecFloat.
From stdpp Require Import base gmap strings list.

Local Open Scope Z_scope.
Local Open Scope string_scope.

(** ** Python results *)

Module Py.

(** The exceptions the module raises itself ([ValueError],
    [RuntimeError]) carry the message of the source; the others come
    from the interpreter or from NumPy. *)
Inductive exn :=
| ValueError (msg : string)
| RuntimeError (msg : string)
| TypeError
| AttributeError
| IndexError
| UnboundLocalError
| ZeroDivisionError
| OverflowError.

Inductive result (A : Type) :=
| Ok (a : A)
| Raise (e : exn).
Arguments Ok {A} a.
Arguments Raise {A} e.

Definition is_raise {A} (r : result A) : bool :=
  match r with Ok _ => false | Raise _ => true end.

Definition rbind {A B} (r : result A) (k : A -> result B) : result B :=
  match r with Ok a => k a | Raise e => Raise e end.

(** [s.replace(old, new)] for a one-character [old]. *)
Fixpoint str_replace (old : ascii) (new s : string) : string :=
  match s with
  | EmptyString => EmptyString
  | String c rest =>
      if Ascii.eqb c old then new ++ str_replace old new rest
      else String c (str_replace old new rest)
  end.

(** [s[:n]] for [n >= 0]. *)
Definition str_prefix (n : nat) (s : string) : string := substring 0 n s.

(** [s[-1]]; [None] stands for the [IndexError] of the empty string. *)
Fixpoint str_last (s : string) : option ascii :=
  match s with
  | EmptyString => None
  | String c EmptyString => Some c
  | String _ rest => str_last rest
  end.

End Py.
Export Py.

(** ** NumPy scalars and arrays *)

Module Np.

(** The element types named by the module: the keys of
    [_texture_dtype_format] and the two 32-bit integer types its
    comments mention as unsupported. *)
Inductive idtype := uint8 | uint16 | uint32 | int8 | int16 | int32.
Inductive fdtype := float32 | float64.
Inductive dtype := Int (d : idtype) | Float (d : fdtype).

#[global] Instance idtype_eq_dec : EqDecision idtype.
Proof. solve_decision. Defined.
#[global] Instance fdtype_eq_dec : EqDecision fdtype.
Proof. solve_decision. Defined.
#[global] Instance dtype_eq_dec : EqDecision dtype.
Proof. solve_decision. Defined.

(** [np.issubdtype(dtype, np.floating)] *)
Definition is_floating (d : dtype) : bool :=
  match d with Float _ => true | Int _ => false end.

(** [np.iinfo(dtype).min] and [.max]; [np.iinfo] raises [ValueError]
    on a floating type. *)
Definition iinfo_min (d : idtype) : Z :=
  match d with
  | uint8 | uint16 | uint32 => 0
  | int8 => -128
  | int16 => -32768
  | int32 => -2147483648
  end.

Definition iinfo_max (d : idtype) : Z :=
  match d with
  | uint8 => 255
  | uint16 => 65535
  | uint32 => 4294967295
  | int8 => 127
  | int16 => 32767
  | int32 => 2147483647
  end.

Definition iinfo (d : dtype) : result (Z * Z) :=
  match d with
  | Int i => Ok (iinfo_min i, iinfo_max i)
  | Float _ => Raise (ValueError "Invalid integer data type 'f'.")
  end.

(** *** IEEE 754 formats *)

Definition prec (d : fdtype) : Z :=
  match d with float32 => 24 | float64 => 53 end.
Definition emax (d : fdtype) : Z :=
  match d with float32 => 128 | float64 => 1024 end.

Definition fsub (d : fdtype) := SFsub (prec d) (emax d).
Definition fdiv (d : fdtype) := SFdiv (prec d) (emax d).
Definition is_nan (f : spec_float) : bool :=
  match f with S754_nan => true | _ => false end.

(** Rounding of the dyadic number [m * 2^e] to a format. *)
Definition of_dyadic (d : fdtype) (m e : Z) : spec_float :=
  binary_normalize (prec d) (emax d) m e false.

(** Conversion of a float of any format to format [d]: rounding to
    nearest, ties to even; zeros, infinities and NaN are kept. *)
Definition round_to (d : fdtype) (f : spec_float) : spec_float :=
  match f with
  | S754_finite s m e =>
      binary_normalize (prec d) (emax d) (cond_Zopp s (Zpos m)) e s
  | _ => f
  end.

Definition f32_one : spec_float := S754_finite false 8388608 (-23).

(** *** Scalars

    The numbers a colour limit can be: a Python [int], a Python
    [float], or a NumPy floating scalar. *)
Inductive num :=
| PyInt (z : Z)
| PyFloat (f : spec_float)
| NpFloat (d : fdtype) (f : spec_float).

(** The exact value of a number. *)
Inductive xval :=
| XNaN
| XInf (neg : bool)
| XDyadic (m e : Z).

Definition float_val (f : spec_float) : xval :=
  match f with
  | S754_zero _ => XDyadic 0 0
  | S754_infinity s => XInf s
  | S754_nan => XNaN
  | S754_finite s m e => XDyadic (cond_Zopp s (Zpos m)) e
  end.

Definition num_val (x : num) : xval :=
  match x with
  | PyInt z => XDyadic z 0
  | PyFloat f | NpFloat _ f => float_val f
  end.

Definition xcompare (a b : xval) : option comparison :=
  match a, b with
  | XNaN, _ | _, XNaN => None
  | XInf sa, XInf sb =>
      Some (match sa, sb with
            | true, false => Lt
            | false, true => Gt
            | _, _ => Eq
            end)
  | XInf sa, XDyadic _ _ => Some (if sa then Lt else Gt)
  | XDyadic _ _, XInf sb => Some (if sb then Gt else Lt)
  | XDyadic m1 e1, XDyadic m2 e2 =>
      let e := Z.min e1 e2 in
      Some (Z.compare (m1 * 2 ^ (e1 - e)) (m2 * 2 ^ (e2 - e)))
  end.

Definition is_np (x : num) : bool :=
  match x with NpFloat _ _ => true | _ => false end.
Definition is_zero (f : spec_float) : bool :=
  match f with S754_zero _ => true | _ => false end.
Definition is_inf (f : spec_float) : bool :=
  match f with S754_infinity _ => true | _ => false end.

(** The value [x] enters a comparison with [other] as. Python compares
    an [int] with a [float] exactly; next to a NumPy scalar, NumPy 1.x
    converts a Python [int] (within the int64 range) to float64 first. *)
Definition compared (other x : num) : xval :=
  match x with
  | PyInt z => if is_np other then float_val (of_dyadic float64 z 0) else XDyadic z 0
  | _ => num_val x
  end.

Definition num_compare (a b : num) : option comparison :=
  xcompare (compared b a) (compared a b).

(** Python's [<], [>], [==] and [!=] between numbers; every
    comparison with NaN is false except [!=]. *)
Definition num_lt (a b : num) : bool :=
  match num_compare a b with Some Lt => true | _ => false end.
Definition num_gt (a b : num) : bool := num_lt b a.
Definition num_eq (a b : num) : bool :=
  match num_compare a b with Some Eq => true | _ => false end.
Definition num_ne (a b : num) : bool := negb (num_eq a b).

(** [float(x)]: a Python [int] is rounded to binary64 and raises
    [OverflowError] when it is too large. *)
Definition py_float (x : num) : result spec_float :=
  match x with
  | PyInt z =>
      let f := of_dyadic float64 z 0 in
      if is_inf f then Raise OverflowError else Ok f
  | PyFloat f | NpFloat _ f => Ok f
  end.

(** [np.float32(x)]: a float32 scalar is taken as it is, a Python
    number goes through [float(x)], and a binary64 value is rounded
    (to an infinity when it is out of range). *)
Definition np_float32 (x : num) : result spec_float :=
  match x with
  | NpFloat float32 f => Ok f
  | _ => rbind (py_float x) (fun f => Ok (round_to float32 f))
  end.

(** The operand [x] as a float64, for NumPy 1.x scalar arithmetic
    between a NumPy scalar and another number. *)
Definition to_float64 (x : num) : spec_float :=
  match x with
  | PyInt z => of_dyadic float64 z 0
  | PyFloat f | NpFloat float64 f => f
  | NpFloat float32 f => round_to float64 f
  end.

(** *** Scalar arithmetic

    [a - b] and [a / b] between numbers, with the result type of
    Python and of NumPy 1.x scalars: two [int]s subtract exactly and
    divide to a correctly rounded [float]; [int] and [float]
    operands work in binary64 and raise [ZeroDivisionError] on a zero
    divisor; two float32 scalars stay in float32; any other pair with
    a NumPy scalar gives a float64 scalar. NumPy's division by zero
    yields an infinity or NaN (and a [RuntimeWarning], not modelled).
    A Python [int] too large for binary64 raises [OverflowError] when
    it meets a Python [float]; next to a NumPy scalar Python ints are
    taken within the int64 range. *)
Definition raw_int (z : Z) : spec_float :=
  match z with
  | Z0 => S754_zero false
  | Zpos p => S754_finite false p 0
  | Zneg p => S754_finite true p 0
  end.

Definition num_sub (a b : num) : result num :=
  match a, b with
  | PyInt x, PyInt y => Ok (PyInt (x - y))
  | NpFloat float32 x, NpFloat float32 y => Ok (NpFloat float32 (fsub float32 x y))
  | _, _ =>
      if is_np a || is_np b then
        Ok (NpFloat float64 (fsub float64 (to_float64 a) (to_float64 b)))
      else
        rbind (py_float a) (fun x =>
        rbind (py_float b) (fun y =>
        Ok (PyFloat (fsub float64 x y))))
  end.

Definition num_div (a b : num) : result num :=
  match a, b with
  | PyInt x, PyInt y =>
      if Z.eqb y 0 then Raise ZeroDivisionError
      else
        let q := fdiv float64 (raw_int x) (raw_int y) in
        if is_inf q then Raise OverflowError else Ok (PyFloat q)
  | NpFloat float32 x, NpFloat float32 y => Ok (NpFloat float32 (fdiv float32 x y))
  | _, _ =>
      if is_np a || is_np b then
        Ok (NpFloat float64 (fdiv float64 (to_float64 a) (to_float64 b)))
      else
        rbind (py_float a) (fun x =>
        rbind (py_float b) (fun y =>
        if is_zero y then Raise ZeroDivisionError
        else Ok (PyFloat (fdiv float64 x y))))
  end.

(** *** Arrays

    An [ndarray] has an element type, a shape and its elements in
    row-major order; integer arrays hold integers, floating arrays
    hold floats of their format. *)
Inductive ndarray :=
| IntArray (d : idtype) (shape : list nat) (flat : list Z)
| FloatArray (d : fdtype) (shape : list nat) (flat : list spec_float).

Definition dtype_of (a : ndarray) : dtype :=
  match a with
  | IntArray d _ _ => Int d
  | FloatArray d _ _ => Float d
  end.

Definition shape_of (a : ndarray) : list nat :=
  match a with
  | IntArray _ sh _ | FloatArray _ sh _ => sh
  end.

Definition ndim (a : ndarray) : nat := length (shape_of a).

(** [data.shape[i]] for [i >= 0] *)
Definition shape_at (a : ndarray) (i : nat) : result nat :=
  match shape_of a !! i with
  | Some n => Ok n
  | None => Raise IndexError
  end.

(** [data.shape[-1]] *)
Definition shape_last (a : ndarray) : result nat :=
  match last (shape_of a) with
  | Some n => Ok n
  | None => Raise IndexError
  end.

(** A scalar taken out of an array. *)
Inductive scalar :=
| IntScalar (d : idtype) (z : Z)
| FloatScalar (d : fdtype) (f : spec_float).

(** [np.float32(x)] for an array scalar. *)
Definition scalar_to_float32 (x : scalar) : spec_float :=
  match x with
  | IntScalar _ z => of_dyadic float32 z 0
  | FloatScalar float32 f => f
  | FloatScalar float64 f => round_to float32 f
  end.

(** The reduction loops of [np.minimum] and [np.maximum]: the
    accumulator is kept when it compares [<=] (resp. [>=]) to the next
    element or is NaN, so a NaN element propagates. *)
Definition fmin (acc x : spec_float) : spec_float :=
  if SFleb acc x || is_nan acc then acc else x.
Definition fmax (acc x : spec_float) : spec_float :=
  if SFleb x acc || is_nan acc then acc else x.

Definition zero_size : exn :=
  ValueError "zero-size array to reduction operation which has no identity".

Definition np_min (a : ndarray) : result scalar :=
  match a with
  | IntArray d _ (x :: l) => Ok (IntScalar d (fold_left Z.min l x))
  | FloatArray d _ (x :: l) => Ok (FloatScalar d (fold_left fmin l x))
  | _ => Raise zero_size
  end.

Definition np_max (a : ndarray) : result scalar :=
  match a with
  | IntArray d _ (x :: l) => Ok (IntScalar d (fold_left Z.max l x))
  | FloatArray d _ (x :: l) => Ok (FloatScalar d (fold_left fmax l x))
  | _ => Raise zero_size
  end.

(** [np.array(data, dtype=np.float32, copy=True)] and
    [data.astype(np.float32)]: a new float32 array. *)
Definition as_float32 (a : ndarray) : ndarray :=
  match a with
  | IntArray _ sh l => FloatArray float32 sh (map (fun z => of_dyadic float32 z 0) l)
  | FloatArray float32 sh l => FloatArray float32 sh l
  | FloatArray float64 sh l => FloatArray float32 sh (map (round_to float32) l)
  end.

(** A float32 scalar as an operand of type [d]; widening to float64
    is exact. *)
Definition widen (d : fdtype) (c : spec_float) : spec_float :=
  match d with
  | float32 => c
  | float64 => round_to float64 c
  end.

(** [data -= c] and [data /= c] with a float32 scalar [c]: the
    operation is carried out in the array's own type. On an integer
    array the floating result cannot be stored back and NumPy raises a
    [TypeError]. *)
Definition isub (a : ndarray) (c : spec_float) : result ndarray :=
  match a with
  | IntArray _ _ _ => Raise TypeError
  | FloatArray d sh l =>
      Ok (FloatArray d sh (map (fun x => fsub d x (widen d c)) l))
  end.

Definition idiv (a : ndarray) (c : spec_float) : result ndarray :=
  match a with
  | IntArray _ _ _ => Raise TypeError
  | FloatArray d sh l =>
      Ok (FloatArray d sh (map (fun x => fdiv d x (widen d c)) l))
  end.

(** [np.zeros(shape).astype(dtype)] *)
Definition zeros (d : dtype) (sh : list nat) : ndarray :=
  let n := fold_right Nat.mul 1%nat sh in
  match d with
  | Int i => IntArray i sh (repeat 0 n)
  | Float f => FloatArray f sh (repeat (S754_zero false) n)
  end.

End Np.
Export Np.

(** ** The texture object and the interpreter state *)

Module Store.

(** [self._clim]: [None] until it is first set, the string ['auto'],
    or a pair. *)
Inductive climv :=
| ClimUnset
| ClimAuto
| ClimPair (cmin cmax : num).

(** A pair of float32 scalars as a pair of numbers and as a value of
    [_clim]. *)
Definition float32_pair (c : spec_float * spec_float) : num * num :=
  (NpFloat float32 (fst c), NpFloat float32 (snd c)).
Definition clim_of (c : spec_float * spec_float) : climv :=
  ClimPair (NpFloat float32 (fst c)) (NpFloat float32 (snd c)).

(** What [texture_format] / [internalformat] can be: [None], a string
    (['auto'] or a GL format name), or a NumPy scalar type. *)
Inductive texfmt :=
| FmtNone
| FmtStr (s : string)
| FmtType (d : dtype).

(** The objects [set_clim] is called with: [None], a string, a bare
    number, or a sequence (tuple or list) of numbers. *)
Inductive pyobj :=
| PyNone
| PyStr (s : string)
| PyNumber (n : num)
| PySeq (items : list num).

(** [cmin, cmax = clim] for an object that is not a string: a
    sequence of another length raises [ValueError], an object that is
    not iterable raises [TypeError]. *)
Definition unpack2 (o : pyobj) : result (num * num) :=
  match o with
  | PySeq [a; b] => Ok (a, b)
  | PySeq _ | PyStr _ => Raise (ValueError "wrong number of values to unpack (expected 2)")
  | PyNone | PyNumber _ => Raise TypeError
  end.

(** Arrays live in a store and are passed by reference. A location
    outside the store stands for no array ([None]). *)
Definition loc := nat.

Record state := mkState {
  (* attributes of the texture object *)
  _ndim : nat;
  _clim : climv;
  _data_dtype : option dtype;
  _data_limits : option (num * num);
  _auto_texture_format : bool;
  (* the underlying texture resource *)
  internalformat : texfmt;
  tex_shape : list nat;
  resize_calls : list (list nat * string);
  set_data_calls : list (loc * option (list nat) * bool);
  (* the rest of the interpreter *)
  heap : gmap loc ndarray;
  warnings : list string
}.

Definition with_clim (v : climv) (s : state) : state :=
  mkState (_ndim s) v (_data_dtype s) (_data_limits s) (_auto_texture_format s)
    (internalformat s) (tex_shape s) (resize_calls s) (set_data_calls s)
    (heap s) (warnings s).

Definition with_data_dtype (v : option dtype) (s : state) : state :=
  mkState (_ndim s) (_clim s) v (_data_limits s) (_auto_texture_format s)
    (internalformat s) (tex_shape s) (resize_calls s) (set_data_calls s)
    (heap s) (warnings s).

Definition with_data_limits (v : option (num * num)) (s : state) : state :=
  mkState (_ndim s) (_clim s) (_data_dtype s) v (_auto_texture_format s)
    (internalformat s) (tex_shape s) (resize_calls s) (set_data_calls s)
    (heap s) (warnings s).

Definition with_auto_texture_format (v : bool) (s : state) : state :=
  mkState (_ndim s) (_clim s) (_data_dtype s) (_data_limits s) v
    (internalformat s) (tex_shape s) (resize_calls s) (set_data_calls s)
    (heap s) (warnings s).

Definition with_storage (sh : list nat) (f : texfmt) (s : state) : state :=
  mkState (_ndim s) (_clim s) (_data_dtype s) (_data_limits s) (_auto_texture_format s)
    f sh (resize_calls s) (set_data_calls s) (heap s) (warnings s).

Definition with_resize_call (c : list nat * string) (s : state) : state :=
  mkState (_ndim s) (_clim s) (_data_dtype s) (_data_limits s) (_auto_texture_format s)
    (internalformat s) (tex_shape s) (resize_calls s ++ [c]) (set_data_calls s)
    (heap s) (warnings s).

Definition with_set_data_call (c : loc * option (list nat) * bool) (s : state) : state :=
  mkState (_ndim s) (_clim s) (_data_dtype s) (_data_limits s) (_auto_texture_format s)
    (internalformat s) (tex_shape s) (resize_calls s) (set_data_calls s ++ [c])
    (heap s) (warnings s).

Definition with_heap (h : gmap loc ndarray) (s : state) : state :=
  mkState (_ndim s) (_clim s) (_data_dtype s) (_data_limits s) (_auto_texture_format s)
    (internalformat s) (tex_shape s) (resize_calls s) (set_data_calls s)
    h (warnings s).

Definition with_warning (w : string) (s : state) : state :=
  mkState (_ndim s) (_clim s) (_data_dtype s) (_data_limits s) (_auto_texture_format s)
    (internalformat s) (tex_shape s) (resize_calls s) (set_data_calls s)
    (heap s) (warnings s ++ [w]).

(** A computation reads and updates the state and returns or raises;
    the state reached when an exception is raised is kept, as in
    Python. *)
Definition M (A : Type) : Type := state -> result A * state.

Definition ret {A} (a : A) : M A := fun s => (Ok a, s).
Definition raise {A} (e : exn) : M A := fun s => (Raise e, s).
Definition bind {A B} (c : M A) (k : A -> M B) : M B :=
  fun s => match c s with
           | (Ok a, s') => k a s'
           | (Raise e, s') => (Raise e, s')
           end.
Definition get {A} (f : state -> A) : M A := fun s => (Ok (f s), s).
Definition modify (f : state -> state) : M unit := fun s => (Ok tt, f s).
Definition lift {A} (r : result A) : M A := fun s => (r, s).

(** [warnings.warn(msg)] *)
Definition warn (msg : string) : M unit := modify (with_warning msg).

(** The array behind a reference. *)
Definition deref (l : loc) : M ndarray :=
  fun s => match heap s !! l with
           | Some a => (Ok a, s)
           | None => (Raise AttributeError, s)
           end.

(** A new array object. *)
Definition alloc (a : ndarray) : M loc :=
  fun s => let l := fresh (dom (heap s)) in
           (Ok l, with_heap (<[l := a]> (heap s)) s).

(** In-place update of the array behind a reference. *)
Definition store (l : loc) (a : ndarray) : M unit :=
  modify (fun s => with_heap (<[l := a]> (heap s)) s).

End Store.
Export Store.

Declare Scope py_scope.
Delimit Scope py_scope with py.
Notation "x <- c ;; k" := (bind c (fun x => k))
  (at level 100, c at next level, right associativity) : py_scope.
Notation "c ;;; k" := (bind c (fun _ => k))
  (at level 100, right associativity) : py_scope.
Local Open Scope py_scope.

(** ** The underlying texture resource

    [Texture2D] and [Texture3D] come from [vispy.gloo]; the mixins use
    three of their operations. *)

Module BaseTexture.

(** Modelled from the spec: [Texture.__init__] is not part of this
    module; it is the spec's [allocate(shape, storageFormat)], which
    creates storage of the given shape and internal format, the format
    being what [currentFormat()] / [self.internalformat] then
    returns. *)
Definition init (data : ndarray) (fmt : texfmt) : M unit :=
  modify (with_storage (shape_of data) fmt).

(** Modelled from the spec: [Texture._resize] is not part of this
    module; it is the spec's [resize(newShape, storageFormat)], which
    reallocates the storage with a format that may differ from the
    current one. The call is recorded. *)
Definition _resize (sh : list nat) (fmt : string) : M unit :=
  modify (with_resize_call (sh, fmt));;;
  modify (with_storage sh (FmtStr fmt)).

(** Modelled from the spec: [Texture.set_data] is not part of this
    module; it is the spec's [rawUpload(data, offset, copyRequested)],
    which transfers a host buffer into the existing storage. The call
    is recorded. *)
Definition set_data (data : loc) (offset : option (list nat)) (copy : bool) : M unit :=
  modify (with_set_data_call (data, offset, copy)).

End BaseTexture.

(** ** [_ScaledTextureMixin] *)

Module _ScaledTextureMixin.

Definition dquote : string := String (ascii_of_nat 34) EmptyString.

Definition msg_clim_str : string :=
  "clim must be " ++ dquote ++ "auto" ++ dquote ++ " if a string".
Definition msg_clim_two : string := "clim must have two elements".

Definition _get_texture_format_for_data
    (data : option ndarray) (format : option string) (internalformat : texfmt) : M texfmt :=
  ret internalformat.

Definition _data_num_channels (data : option ndarray) (format : option string) : M nat :=
  if decide (format = Some "luminance") then ret 1%nat
  else match data with
       | Some a =>
           nd <- get _ndim;;
           if Nat.eqb (ndim a) (nd + 1) then lift (shape_last a) else ret 1%nat
       | None => ret 4%nat
       end.

Definition _create_rep_array (data : option ndarray) (format : option string) : M ndarray :=
  let dtype := match data with Some a => dtype_of a | None => Float float32 end in
  num_channels <- _data_num_channels data format;;
  nd <- get _ndim;;
  let init_shape := (repeat 10%nat nd ++ [num_channels])%list in
  ret (zeros dtype init_shape).

(** [get_format] is the [_get_texture_format_for_data] of the class
    of [self]. *)
Definition init_scaling_texture
    (get_format : option ndarray -> option string -> texfmt -> M texfmt)
    (data : option ndarray) (format : option string) (internalformat : texfmt)
    : M (ndarray * texfmt) :=
  modify (with_data_dtype (option_map dtype_of data));;;
  data <- _create_rep_array data format;;
  internalformat <- get_format (Some data) format internalformat;;
  ret (data, internalformat).

Definition __init__
    (get_format : option ndarray -> option string -> texfmt -> M texfmt)
    (data : option ndarray) (format : option string) (internalformat : texfmt)
    : M unit :=
  modify (with_clim ClimUnset);;;
  modify (with_data_dtype None);;;
  r <- init_scaling_texture get_format data format internalformat;;
  let '(data, internalformat) := r in
  BaseTexture.init data internalformat.

Definition set_clim (clim : pyobj) : M bool :=
  match clim with
  | PyStr s =>
      if negb (String.eqb s "auto") then raise (ValueError msg_clim_str)
      else modify (with_clim ClimAuto);;; ret true
  | _ =>
      match unpack2 clim with
      | Raise _ => raise (ValueError msg_clim_two)
      | Ok (cmin, cmax) =>
          modify (with_clim (ClimPair cmin cmax));;; ret false
      end
  end.

Definition check_data_format (data : ndarray) : M unit := ret tt.

Definition _get_default_clims (data : ndarray) : result (num * num) :=
  if is_floating (dtype_of data) then Ok (PyInt 0, PyInt 1)
  else rbind (iinfo (dtype_of data)) (fun '(dmin, dmax) => Ok (PyInt dmin, PyInt dmax)).

Definition scale_and_set_data (data : loc) (offset : option (list nat)) (copy : bool) : M unit :=
  BaseTexture.set_data data offset copy.

(** The [clim] property. *)
Definition clim : M climv := get _clim.

(** [self.clim[i]] for [i] 0 or 1: [None] cannot be indexed, and the
    string ['auto'] gives its characters. *)
Definition clim_item (c : climv) (i : nat) : result pyobj :=
  match c with
  | ClimUnset => Raise TypeError
  | ClimAuto => Ok (PyStr (substring i 1 "auto"))
  | ClimPair cmin cmax => Ok (PyNumber (if Nat.eqb i 0 then cmin else cmax))
  end.

(** The [is_normalized] property. Indexing the empty string raises
    [IndexError]; a format that is a type cannot be indexed. *)
Definition is_normalized : M bool :=
  fmt <- get internalformat;;
  match fmt with
  | FmtNone => ret true
  | FmtStr s =>
      match str_last s with
      | None => raise IndexError
      | Some c => ret (negb (Ascii.eqb c "f" || Ascii.eqb c "i"))
      end
  | FmtType _ => raise TypeError
  end.

(** [np.iinfo(input_data_dtype)]; [np.iinfo(None)] is that of the
    default type, float64. *)
Definition iinfo_of (d : option dtype) : result (Z * Z) :=
  match d with
  | Some d => iinfo d
  | None => iinfo (Float float64)
  end.

(** [val - dmin]: only a number can be subtracted from. *)
Definition py_sub (val : pyobj) (b : num) : result num :=
  match val with
  | PyNumber a => num_sub a b
  | _ => Raise TypeError
  end.

Definition normalize_value (val : pyobj) (input_data_dtype : option dtype) : M pyobj :=
  normalized <- is_normalized;;
  if negb normalized then ret val
  else
    dtype_info <- lift (iinfo_of input_data_dtype);;
    let '(dmin, dmax) := dtype_info in
    n <- lift (py_sub val (PyInt dmin));;
    d <- lift (num_sub (PyInt dmax) (PyInt dmin));;
    val <- lift (num_div n d);;
    ret (PyNumber val).

(** The [clim_normalized] property of the shared class, which the GPU
    class inherits. *)
Definition clim_normalized : M (pyobj * pyobj) :=
  c <- clim;;
  v <- lift (clim_item c 0);;
  dt <- get _data_dtype;;
  clim_min <- normalize_value v dt;;
  c <- clim;;
  v <- lift (clim_item c 1);;
  dt <- get _data_dtype;;
  clim_max <- normalize_value v dt;;
  ret (clim_min, clim_max).

End _ScaledTextureMixin.

(** ** [CPUScaledTextureMixIn] *)

Module CPUScaledTextureMixIn.
Section WithTextureHelpers.

(** [vispy.gloo.texture.should_cast_to_f32] is imported from outside
    this module; it tells whether a data type has to be downcast to
    float32. *)
Variable should_cast_to_f32 : dtype -> bool.

Definition msg_no_copy : string :=
  "Data must be of floating type for no copying to occur.".

Definition __init__ (data : option ndarray) (format : option string)
    (internalformat : texfmt) : M unit :=
  modify (with_data_limits None);;;
  _ScaledTextureMixin.__init__ _ScaledTextureMixin._get_texture_format_for_data
    data format internalformat.

Definition _clim_outside_data_limits (cmin cmax : num) : M bool :=
  limits <- get _data_limits;;
  match limits with
  | None => ret false
  | Some (lo, hi) => ret (num_lt cmin lo || num_gt cmax hi)
  end.

Definition set_clim (clim : pyobj) : M bool :=
  match clim with
  | PyStr s =>
      if negb (String.eqb s "auto") then raise (ValueError _ScaledTextureMixin.msg_clim_str)
      else modify (with_clim ClimAuto);;; ret true
  | _ =>
      match unpack2 clim with
      | Raise _ => raise (ValueError _ScaledTextureMixin.msg_clim_two)
      | Ok (cmin, cmax) =>
          need_texture_upload <- _clim_outside_data_limits cmin cmax;;
          modify (with_clim (ClimPair cmin cmax));;;
          ret need_texture_upload
      end
  end.

Definition clim_normalized : M (num * num) :=
  limits <- get _data_limits;;
  match limits with
  | None => raise TypeError
  | Some (range_min, range_max) =>
      clim <- get _clim;;
      match clim with
      | ClimUnset => raise TypeError
      | ClimAuto => raise (ValueError "too many values to unpack (expected 2)")
      | ClimPair clim_min clim_max =>
          n <- lift (num_sub clim_min range_min);;
          d <- lift (num_sub range_max range_min);;
          clim_min' <- lift (num_div n d);;
          n <- lift (num_sub clim_max range_min);;
          d <- lift (num_sub range_max range_min);;
          clim_max' <- lift (num_div n d);;
          ret (clim_min', clim_max')
      end
  end.

(** [data -= c] / [data /= c] on the array behind [data]. *)
Definition inplace (op : ndarray -> spec_float -> result ndarray) (data : loc)
    (c : spec_float) : M unit :=
  a <- deref data;;
  a' <- lift (op a c);;
  store data a'.

(** [clim] is a pair of float32 scalars, as [scale_and_set_data]
    passes it. *)
Definition _scale_data_on_cpu (data : loc) (clim : spec_float * spec_float) (copy : bool)
    : M loc :=
  a <- deref data;;
  data <- (if copy then
             let _ := should_cast_to_f32 (dtype_of a) in
             alloc (as_float32 a)
           else if negb (is_floating (dtype_of a)) then
             raise (ValueError msg_no_copy)
           else ret data);;
  (if num_eq (NpFloat float32 (fst clim)) (NpFloat float32 (snd clim)) then
     if num_ne (NpFloat float32 (fst clim)) (PyInt 0) then inplace idiv data (fst clim)
     else ret tt
   else
     inplace isub data (fst clim);;;
     inplace idiv data (fsub float32 (snd clim) (fst clim)));;;
  a <- deref data;;
  if should_cast_to_f32 (dtype_of a) then alloc (as_float32 a)
  else ret data.

(** [is_auto] is the case [ClimAuto] of [clim]; [clim[0]] on the
    [None] of a texture whose limits were never set raises
    [TypeError]. *)
Definition scale_and_set_data (data : loc) (offset : option (list nat)) (copy : bool) : M unit :=
  a <- deref data;;
  modify (with_data_dtype (Some (dtype_of a)));;;
  clim <- get _clim;;
  nd <- get _ndim;;
  single <- (if Nat.eqb (ndim a) nd then ret true
             else n <- lift (shape_at a nd);; ret (Nat.eqb n 1));;
  r <- (if single : bool then
          clim <- match clim with
                  | ClimAuto =>
                      lo <- lift (np_min a);;
                      hi <- lift (np_max a);;
                      ret (scalar_to_float32 lo, scalar_to_float32 hi)
                  | ClimPair c0 c1 =>
                      c0 <- lift (np_float32 c0);;
                      c1 <- lift (np_float32 c1);;
                      ret (c0, c1)
                  | ClimUnset => raise TypeError
                  end;;
          data <- _scale_data_on_cpu data clim copy;;
          ret (data, clim_of clim, float32_pair clim)
        else
          data_limits <- lift (_ScaledTextureMixin._get_default_clims a);;
          let clim := match clim with
                      | ClimAuto => ClimPair (fst data_limits) (snd data_limits)
                      | _ => clim
                      end in
          ret (data, clim, data_limits));;
  let '(data, clim, data_limits) := r in
  modify (with_clim clim);;;
  modify (with_data_limits (Some data_limits));;;
  _ScaledTextureMixin.scale_and_set_data data offset copy.

End WithTextureHelpers.
End CPUScaledTextureMixIn.

(** ** [GPUScaledTextureMixin] *)

Module GPUScaledTextureMixin.
Section WithTextureHelpers.

Variable should_cast_to_f32 : dtype -> bool.

(** dtype -> internalformat *)
Definition _texture_dtype_format : list (dtype * string) :=
  [ (Float float32, "r32f");
    (Float float64, "r32f");
    (Int uint8, "r8");
    (Int uint16, "r16");
    (Int int8, "r8");
    (Int int16, "r16") ].

Fixpoint dict_get (d : dtype) (table : list (dtype * string)) : option string :=
  match table with
  | [] => None
  | (k, v) :: rest => if decide (k = d) then Some v else dict_get d rest
  end.

(** [str(t)] of a NumPy scalar type *)
Definition type_name (d : dtype) : string :=
  match d with
  | Float float32 => "float32"
  | Float float64 => "float64"
  | Int uint8 => "uint8"
  | Int uint16 => "uint16"
  | Int uint32 => "uint32"
  | Int int8 => "int8"
  | Int int16 => "int16"
  | Int int32 => "int32"
  end.

Definition msg_no_format (d : dtype) : string :=
  "Can't determine internal texture format for '<class 'numpy." ++ type_name d ++ "'>'".
Definition msg_auto_no_data : string :=
  "'texture_format' set to 'auto' but no data provided. Falling back to CPU scaling.".
Definition msg_format_change : string :=
  "Data being set would cause a format change in the texture. This is only allowed when 'texture_format' is set to 'auto'.".
Definition msg_not_auto : string :=
  "'internalformat' needs to change but 'texture_format' was not 'auto'.".

Definition _handle_auto_texture_format (texture_format : texfmt) (data : option ndarray)
    : M texfmt :=
  match texture_format with
  | FmtStr s =>
      if String.eqb s "auto" then
        match data with
        | None => warn msg_auto_no_data;;; ret FmtNone
        | Some a =>
            modify (with_auto_texture_format true);;;
            ret (FmtType (dtype_of a))
        end
      else ret texture_format
  | _ => ret texture_format
  end.

(** Truth value of a format argument: [None] and the empty string
    are false. *)
Definition truthy (f : texfmt) : bool :=
  match f with
  | FmtNone => false
  | FmtStr s => negb (String.eqb s "")
  | FmtType _ => true
  end.

Definition is_str (f : texfmt) : bool :=
  match f with FmtStr _ => true | _ => false end.

Definition _get_gl_tex_format (texture_format : texfmt) (num_channels : nat) : result string :=
  rbind
    (if truthy texture_format && negb (is_str texture_format) then
       match texture_format with
       | FmtType d =>
           match dict_get d _texture_dtype_format with
           | None => Raise (ValueError (msg_no_format d))
           | Some f => let _ := should_cast_to_f32 d in Ok (FmtStr f)
           end
       | _ => Ok texture_format
       end
     else Ok texture_format)
    (fun texture_format =>
       (* adjust internalformat for format of data (RGBA vs L) *)
       match texture_format with
       | FmtStr s => Ok (str_replace "r" (str_prefix num_channels "rgba") s)
       | _ => Raise AttributeError
       end).

Definition _get_texture_format_for_data
    (data : option ndarray) (format : option string) (internalformat : texfmt) : M texfmt :=
  match internalformat with
  | FmtNone => raise UnboundLocalError
  | _ =>
      num_channels <- _ScaledTextureMixin._data_num_channels data format;;
      texture_format <- _handle_auto_texture_format internalformat data;;
      texture_format <- lift (_get_gl_tex_format texture_format num_channels);;
      ret (FmtStr texture_format)
  end.

(** The constructor is the inherited one, run with this class's
    [_get_texture_format_for_data]. *)
Definition __init__ (data : option ndarray) (format : option string)
    (internalformat : texfmt) : M unit :=
  _ScaledTextureMixin.__init__ _get_texture_format_for_data data format internalformat.

(** [is_auto] is the case [ClimAuto] of [clim]; [clim[0]] on the
    [None] of a texture whose limits were never set raises
    [TypeError]. *)
Definition _compute_clim (data : ndarray) : M climv :=
  clim <- get _clim;;
  single <- (if Nat.eqb (ndim data) 2 then ret true
             else n <- lift (shape_at data 2);; ret (Nat.eqb n 1));;
  if single : bool then
    clim <- match clim with
            | ClimAuto =>
                lo <- lift (np_min data);;
                hi <- lift (np_max data);;
                ret (scalar_to_float32 lo, scalar_to_float32 hi)
            | ClimPair c0 c1 =>
                c0 <- lift (np_float32 c0);;
                c1 <- lift (np_float32 c1);;
                ret (c0, c1)
            | ClimUnset => raise TypeError
            end;;
    ret (clim_of clim)
  else
    match clim with
    | ClimAuto =>
        (* assume that RGB data is already scaled (0, 1) *)
        clim <- lift (_ScaledTextureMixin._get_default_clims data);;
        ret (ClimPair (fst clim) (snd clim))
    | _ => ret clim
    end.

(** [new_if != self.internalformat] *)
Definition fmt_ne (new_if : string) (current : texfmt) : bool :=
  match current with
  | FmtStr s => negb (String.eqb new_if s)
  | _ => true
  end.

Definition _internalformat_will_change (data : ndarray) : M bool :=
  shape_repr <- _ScaledTextureMixin._create_rep_array (Some data) None;;
  n <- lift (shape_last shape_repr);;
  new_if <- lift (_get_gl_tex_format (FmtType (dtype_of data)) n);;
  current <- get internalformat;;
  ret (fmt_ne new_if current).

Definition check_data_format (data : ndarray) : M unit :=
  change <- _internalformat_will_change data;;
  auto <- get _auto_texture_format;;
  if change && negb auto then raise (ValueError msg_format_change)
  else ret tt.

Definition _reformat_if_necessary (data : ndarray) : M unit :=
  change <- _internalformat_will_change data;;
  if negb change then ret tt
  else
    auto <- get _auto_texture_format;;
    if auto : bool then
      shape_repr <- _ScaledTextureMixin._create_rep_array (Some data) None;;
      n <- lift (shape_last shape_repr);;
      internalformat <- lift (_get_gl_tex_format (FmtType (dtype_of data)) n);;
      BaseTexture._resize (shape_of data) internalformat
    else raise (RuntimeError msg_not_auto).

Definition scale_and_set_data (data : loc) (offset : option (list nat)) (copy : bool) : M unit :=
  a <- deref data;;
  _reformat_if_necessary a;;;
  modify (with_data_dtype (Some (dtype_of a)));;;
  clim <- _compute_clim a;;
  modify (with_clim clim);;;
  _ScaledTextureMixin.scale_and_set_data data offset copy.

End WithTextureHelpers.
End GPUScaledTextureMixin.

(** * Properties *)

(** ** Vocabulary and example data *)

(** A texture object as the class body leaves it, before [__init__]:
    [_auto_texture_format = False], nothing stored, nothing emitted. *)
Definition new_object (nd : nat) : state :=
  mkState nd ClimUnset None None false FmtNone [] [] [] ∅ [].

(** An instance of the imported helper for concrete runs: floating
    types wider than 32 bits are downcast. *)
Definition wider_than_f32 (d : dtype) : bool :=
  match d with Float float64 => true | _ => false end.

Ltac run_py :=
  unfold bind, ret, raise, get, modify, lift, warn; cbn.

(** The arguments [set_clim] has to reject: a string other than
    ['auto'], or an object that does not unpack into two elements. *)
Definition rejected (o : pyobj) : Prop :=
  match o with
  | PyStr s => s <> "auto"
  | PySeq items => length items <> 2%nat
  | PyNone | PyNumber _ => True
  end.

(** Whether a range lies outside recorded data limits. *)
Definition outside (limits : option (num * num)) (cmin cmax : num) : bool :=
  match limits with
  | None => false
  | Some (lo, hi) => num_lt cmin lo || num_gt cmax hi
  end.

(** What [_scale_data_on_cpu] does to the values of the array it works
    on. *)
Definition rescaled (clim : spec_float * spec_float) (b : ndarray) : result ndarray :=
  if num_eq (NpFloat float32 (fst clim)) (NpFloat float32 (snd clim)) then
    if num_ne (NpFloat float32 (fst clim)) (PyInt 0) then idiv b (fst clim) else Ok b
  else
    rbind (isub b (fst clim)) (fun b1 =>
    idiv b1 (fsub float32 (snd clim) (fst clim))).

(** [data.ndim == self._ndim or data.shape[self._ndim] == 1] *)
Definition single_channel (nd : nat) (a : ndarray) : Prop :=
  ndim a = nd \/ shape_of a !! nd = Some 1%nat.

(** The float32 limits a single-channel upload works with: the
    minimum and maximum of the data for ['auto'], the stored pair
    otherwise, both converted with [np.float32]. *)
Definition limits_of (c : climv) (a : ndarray) : result (spec_float * spec_float) :=
  match c with
  | ClimAuto =>
      rbind (np_min a) (fun lo =>
      rbind (np_max a) (fun hi =>
      Ok (scalar_to_float32 lo, scalar_to_float32 hi)))
  | ClimPair c0 c1 =>
      rbind (np_float32 c0) (fun c0 =>
      rbind (np_float32 c1) (fun c1 =>
      Ok (c0, c1)))
  | ClimUnset => Raise TypeError
  end.

(** The state a single-channel upload ends in. *)
Definition uploaded (s : state) (a : ndarray) (clim : spec_float * spec_float)
    (h : gmap loc ndarray) (call : loc * option (list nat) * bool) : state :=
  with_set_data_call call
    (with_data_limits (Some (float32_pair clim))
      (with_clim (clim_of clim)
        (with_heap h (with_data_dtype (Some (dtype_of a)) s)))).

(** The integer [z] as a float32. *)
Definition f32 (z : Z) : spec_float := of_dyadic float32 z 0.

(** A single-channel float32 volume of shape (2, 2, 2) with values
    between 5 and 7. *)
Definition volume : ndarray :=
  FloatArray float32 [2; 2; 2]%nat (map f32 [5; 6; 7; 5; 6; 7; 5; 6]).

(** The number of channels [_create_rep_array(data)] gives its
    representative array, and the internal format
    [_internalformat_will_change] and [_reformat_if_necessary] derive
    from it for [data]. *)
Definition channels_of (nd : nat) (data : ndarray) : result nat :=
  if Nat.eqb (ndim data) (nd + 1) then shape_last data else Ok 1%nat.

Definition resolved_format (should_cast_to_f32 : dtype -> bool) (nd : nat) (data : ndarray)
    : result string :=
  rbind (channels_of nd data) (fun n =>
  GPUScaledTextureMixin._get_gl_tex_format should_cast_to_f32 (FmtType (dtype_of data)) n).

(** 0.1 and 0.2 as float64. *)
Definition tenth : spec_float := S754_finite false 7205759403792794 (-56).
Definition fifth : spec_float := S754_finite false 7205759403792794 (-55).

(** A 2-D CPU texture with [_clim = 'auto'] and, at reference 0, a
    float64 image of shape (1, 2) holding 0.1 and 0.2. *)
Definition image64 : ndarray := FloatArray float64 [1; 2]%nat [tenth; fifth].
Definition auto_with_image64 : state :=
  with_heap {[ 0%nat := image64 ]} (with_clim ClimAuto (new_object 2)).

(** A 2-D CPU texture and, at reference 0, an int16 image of shape
    (1, 3); the spec's scenario. *)
Definition image16 : ndarray := IntArray int16 [1; 3]%nat [-100; 200; 500].
Definition auto_with_image16 : state :=
  with_heap {[ 0%nat := image16 ]} (with_clim ClimAuto (new_object 2)).

(** The same texture with colour limits (1, 1). *)
Definition flat_with_image16 : state :=
  with_heap {[ 0%nat := image16 ]} (with_clim (ClimPair (PyInt 1) (PyInt 1)) (new_object 2)).

(** A 2-D texture and, at reference 0, a float32 image holding 5, 6
    and 7. *)
Definition image32 : ndarray := FloatArray float32 [1; 3]%nat [f32 5; f32 6; f32 7].
Definition auto_with_image32 : state :=
  with_heap {[ 0%nat := image32 ]} (with_clim ClimAuto (new_object 2)).

(** The int16 image under colour limits (-100, 500). *)
Definition ranged_with_image16 : state :=
  with_heap {[ 0%nat := image16 ]}
    (with_clim (ClimPair (PyInt (-100)) (PyInt 500)) (new_object 2)).

(** A 2-D GPU texture holding single-channel float32 data, created
    with ['auto']. *)
Definition gpu_r32f : state :=
  mkState 2 ClimUnset None None true (FmtStr "r32f") [10; 10; 1]%nat [] [] ∅ [].

(** An 8-bit RGB image of shape (2, 2, 3). *)
Definition rgb8 : ndarray :=
  IntArray uint8 [2; 2; 3]%nat [10; 20; 30; 40; 50; 60; 70; 80; 90; 100; 110; 120].

(** A computation keeps a component [f] of the state when it leaves
    it as it was, whether it returns or raises. *)
Definition keeps {A B} (f : state -> B) (c : M A) : Prop :=
  forall s, f (snd (c s)) = f s.

(** A 2-D GPU texture holding single-channel float32 data that was
    not created with ['auto'], and the RGB image at reference 0. *)
Definition locked_with_rgb8 : state :=
  with_heap {[ 0%nat := rgb8 ]} (with_auto_texture_format false gpu_r32f).


(** 1.0 as float64. *)
Definition f64_one : spec_float := S754_finite false 4503599627370496 (-52).

(** A 2-D GPU texture holding 8-bit RGB data, created with ['auto']
    and not yet given data or colour limits. *)
Definition gpu_rgb8 : state :=
  mkState 2 ClimUnset None None true (FmtStr "rgb8") [10; 10; 3]%nat [] [] ∅ [].

(** The limits [_get_default_clims] gives an array of element type [d]. *)
Definition default_limits (d : dtype) : num * num :=
  match d with
  | Float _ => (PyInt 0, PyInt 1)
  | Int d => (PyInt (iinfo_min d), PyInt (iinfo_max d))
  end.

(** The state a multi-channel upload to a CPU texture ends in. *)
Definition multi_uploaded (s : state) (a : ndarray) (call : loc * option (list nat) * bool)
    : state :=
  with_set_data_call call
    (with_data_limits (Some (default_limits (dtype_of a)))
      (with_clim (match _clim s with
                  | ClimAuto => ClimPair (fst (default_limits (dtype_of a)))
                                  (snd (default_limits (dtype_of a)))
                  | _ => _clim s
                  end)
        (with_data_dtype (Some (dtype_of a)) s))).

(** [data.size]: the number of elements of an array. *)
Definition size (a : ndarray) : nat :=
  match a with
  | IntArray _ _ l => length l
  | FloatArray _ _ l => length l
  end.

(** A uint32 image of shape (1, 2). *)
Definition image_u32 : ndarray := IntArray uint32 [1; 2]%nat [1; 2].

(** A float32 image of shape (0, 3): no elements. *)
Definition empty32 : ndarray := FloatArray float32 [0; 3]%nat [].

(** ** [set_clim] *)

Lemma unpack2_rejected o :
  rejected o -> (forall s, o <> PyStr s) -> exists e, unpack2 o = Raise e.
Proof.
  destruct o as [| s | n | items]; cbn; intros H Hs; eauto.
  destruct items as [| a [| b [| c rest]]]; cbn in *; eauto. congruence.
Qed.

(** C8: [set_clim] of the shared class and of the CPU class raise
    [ValueError] on a string other than ['auto'] and on an object that
    does not unpack into exactly two elements, and the state they leave
    is the state they started from. *)
Theorem set_clim_rejects_atomically (o : pyobj) (s : state) :
  rejected o ->
  exists msg,
    _ScaledTextureMixin.set_clim o s = (Raise (ValueError msg), s) /\
    CPUScaledTextureMixIn.set_clim o s = (Raise (ValueError msg), s).
Proof.
  intros H. destruct o as [| str | n | items].
  - exists _ScaledTextureMixin.msg_clim_two. split; reflexivity.
  - exists _ScaledTextureMixin.msg_clim_str. cbn in H.
    unfold _ScaledTextureMixin.set_clim, CPUScaledTextureMixIn.set_clim.
    destruct (String.eqb_spec str "auto") as [-> | Hne]; [congruence |].
    split; reflexivity.
  - exists _ScaledTextureMixin.msg_clim_two. split; reflexivity.
  - exists _ScaledTextureMixin.msg_clim_two.
    destruct (unpack2_rejected (PySeq items) H) as [e He]; [congruence |].
    unfold _ScaledTextureMixin.set_clim, CPUScaledTextureMixIn.set_clim.
    rewrite He. split; reflexivity.
Qed.

Lemma set_clim_rejects_atomically_witness :
  exists msg,
    _ScaledTextureMixin.set_clim (PySeq [PyInt 1; PyInt 2; PyInt 3]) (new_object 2)
      = (Raise (ValueError msg), new_object 2) /\
    CPUScaledTextureMixIn.set_clim (PySeq [PyInt 1; PyInt 2; PyInt 3]) (new_object 2)
      = (Raise (ValueError msg), new_object 2).
Proof.
  apply (set_clim_rejects_atomically (PySeq [PyInt 1; PyInt 2; PyInt 3]) (new_object 2)).
  cbn. lia.
Defined.

(** C9: while no upload has recorded data limits, the CPU class's
    [set_clim] stores every two-element range and returns [False]. *)
Theorem set_clim_before_upload (cmin cmax : num) (s : state) :
  _data_limits s = None ->
  CPUScaledTextureMixIn.set_clim (PySeq [cmin; cmax]) s
    = (Ok false, with_clim (ClimPair cmin cmax) s).
Proof.
  intros H. unfold CPUScaledTextureMixIn.set_clim, CPUScaledTextureMixIn._clim_outside_data_limits.
  run_py. rewrite H. reflexivity.
Qed.

Lemma set_clim_before_upload_witness :
  CPUScaledTextureMixIn.set_clim (PySeq [PyInt (-5); PyInt 700]) (new_object 2)
    = (Ok false, with_clim (ClimPair (PyInt (-5)) (PyInt 700)) (new_object 2)).
Proof.
  apply (set_clim_before_upload (PyInt (-5)) (PyInt 700) (new_object 2)).
  reflexivity.
Defined.

(** C5, as the code has it: [set_clim] returns [True] for ['auto'];
    for a two-element range the shared class returns [False] and the
    CPU class returns whether the range lies outside the recorded data
    limits. What [_clim] held before the call plays no part. *)
Theorem set_clim_upload_flag (s : state) (cmin cmax : num) :
  _ScaledTextureMixin.set_clim (PyStr "auto") s = (Ok true, with_clim ClimAuto s) /\
  CPUScaledTextureMixIn.set_clim (PyStr "auto") s = (Ok true, with_clim ClimAuto s) /\
  _ScaledTextureMixin.set_clim (PySeq [cmin; cmax]) s
    = (Ok false, with_clim (ClimPair cmin cmax) s) /\
  CPUScaledTextureMixIn.set_clim (PySeq [cmin; cmax]) s
    = (Ok (outside (_data_limits s) cmin cmax), with_clim (ClimPair cmin cmax) s).
Proof.
  repeat split.
  unfold CPUScaledTextureMixIn.set_clim, CPUScaledTextureMixIn._clim_outside_data_limits.
  run_py. destruct (_data_limits s) as [[lo hi] |]; reflexivity.
Qed.

(** C5 as stated fails: with [_clim] at ['auto'], setting a numeric
    range returns [False] in both classes, although the range "was"
    ['auto']. *)
Lemma set_clim_was_auto_counterexample :
  ~ (forall (s s' : state) (o : pyobj) (b : bool),
       _ScaledTextureMixin.set_clim o s = (Ok b, s') ->
       _clim s = ClimAuto \/ _clim s' = ClimAuto -> b = true) /\
  ~ (forall (s s' : state) (o : pyobj) (b : bool),
       CPUScaledTextureMixIn.set_clim o s = (Ok b, s') ->
       _clim s = ClimAuto \/ _clim s' = ClimAuto -> b = true).
Proof.
  split; intros H;
    specialize (H (with_clim ClimAuto (new_object 2))
                  (with_clim (ClimPair (PyInt 0) (PyInt 1)) (new_object 2))
                  (PySeq [PyInt 0; PyInt 1]) false eq_refl (or_introl eq_refl));
    discriminate H.
Qed.

(** ** Rescaling on the CPU *)

Lemma bind_ok {A B} (c : M A) (k : A -> M B) s a s' :
  c s = (Ok a, s') -> bind c k s = k a s'.
Proof. unfold bind. intros ->. reflexivity. Qed.

Lemma deref_some l a s : heap s !! l = Some a -> deref l s = (Ok a, s).
Proof. unfold deref. intros ->. reflexivity. Qed.

Lemma fresh_loc_ne (h : gmap loc ndarray) l a :
  h !! l = Some a -> fresh (dom h) <> l.
Proof.
  intros H Heq. apply (is_fresh (dom h)). rewrite Heq.
  apply elem_of_dom. eauto.
Qed.

Lemma inplace_run op l c a a' s :
  heap s !! l = Some a -> op a c = Ok a' ->
  CPUScaledTextureMixIn.inplace op l c s = (Ok tt, with_heap (<[l := a']> (heap s)) s).
Proof.
  intros Hl Hop. unfold CPUScaledTextureMixIn.inplace.
  rewrite (bind_ok _ _ _ _ _ (deref_some _ _ _ Hl)).
  unfold lift, bind, store, modify. rewrite Hop. reflexivity.
Qed.

Lemma scale_step_run clim l b0 b s :
  heap s !! l = Some b0 ->
  rescaled clim b0 = Ok b ->
  (if num_eq (NpFloat float32 (fst clim)) (NpFloat float32 (snd clim)) then
     if num_ne (NpFloat float32 (fst clim)) (PyInt 0) then
       CPUScaledTextureMixIn.inplace idiv l (fst clim)
     else ret tt
   else
     CPUScaledTextureMixIn.inplace isub l (fst clim);;;
     CPUScaledTextureMixIn.inplace idiv l (fsub float32 (snd clim) (fst clim))) s
  = (Ok tt, with_heap (<[l := b]> (heap s)) s).
Proof.
  intros Hl Hr. unfold rescaled in Hr.
  destruct (num_eq (NpFloat float32 (fst clim)) (NpFloat float32 (snd clim))).
  - destruct (num_ne (NpFloat float32 (fst clim)) (PyInt 0)).
    + apply (inplace_run _ _ _ _ _ _ Hl Hr).
    + injection Hr as <-. unfold ret. rewrite (insert_id _ _ _ Hl).
      destruct s; reflexivity.
  - destruct (isub b0 (fst clim)) as [b1 |] eqn:Hsub; [| discriminate].
    cbn in Hr.
    rewrite (bind_ok _ _ _ _ _ (inplace_run _ _ _ _ _ _ Hl Hsub)).
    rewrite (inplace_run idiv l _ b1 b); [| apply lookup_insert_eq | exact Hr].
    cbn. rewrite insert_insert_eq. reflexivity.
Qed.

Lemma scale_data_on_cpu_run should_cast_to_f32 s data a clim copy b :
  heap s !! data = Some a ->
  copy = true \/ is_floating (dtype_of a) = true ->
  rescaled clim (if copy then as_float32 a else a) = Ok b ->
  exists l h,
    CPUScaledTextureMixIn._scale_data_on_cpu should_cast_to_f32 data clim copy s
      = (Ok l, with_heap h s) /\
    h !! l = Some (if should_cast_to_f32 (dtype_of b) then as_float32 b else b) /\
    (copy = true -> l <> data /\ h !! data = Some a).
Proof.
  intros Hd Hguard Hr. unfold CPUScaledTextureMixIn._scale_data_on_cpu.
  rewrite (bind_ok _ _ _ _ _ (deref_some _ _ _ Hd)).
  destruct copy.
  - set (l1 := fresh (dom (heap s))).
    assert (Hne : l1 <> data) by (apply (fresh_loc_ne _ _ _ Hd)).
    unfold alloc at 1. unfold bind at 1. fold l1.
    set (s1 := with_heap (<[l1 := as_float32 a]> (heap s)) s).
    assert (H1 : heap s1 !! l1 = Some (as_float32 a)) by apply lookup_insert_eq.
    rewrite (bind_ok _ _ _ _ _ (scale_step_run _ _ _ _ _ H1 Hr)).
    set (s2 := with_heap (<[l1 := b]> (heap s1)) s1).
    assert (H2 : heap s2 !! l1 = Some b) by apply lookup_insert_eq.
    assert (Hd2 : heap s2 !! data = Some a).
    { cbn. rewrite !lookup_insert_ne by exact Hne. exact Hd. }
    rewrite (bind_ok _ _ _ _ _ (deref_some _ _ _ H2)).
    destruct (should_cast_to_f32 (dtype_of b)).
    + unfold alloc. eexists _, _. split; [reflexivity |]. split.
      * apply lookup_insert_eq.
      * intros _. pose proof (fresh_loc_ne _ _ _ Hd2) as Hne2. split; [exact Hne2 |].
        rewrite lookup_insert_ne by exact Hne2. exact Hd2.
    + unfold ret. eexists _, _. split; [reflexivity |]. split.
      * exact H2.
      * intros _. split; [exact Hne | exact Hd2].
  - destruct Hguard as [Hc | Hf]; [discriminate |]. rewrite Hf. cbn [negb].
    unfold ret at 1. unfold bind at 1.
    rewrite (bind_ok _ _ _ _ _ (scale_step_run _ _ _ _ _ Hd Hr)).
    set (s2 := with_heap (<[data := b]> (heap s)) s).
    assert (H2 : heap s2 !! data = Some b) by apply lookup_insert_eq.
    rewrite (bind_ok _ _ _ _ _ (deref_some _ _ _ H2)).
    destruct (should_cast_to_f32 (dtype_of b)).
    + unfold alloc. eexists _, _. split; [reflexivity |]. split.
      * apply lookup_insert_eq.
      * discriminate.
    + unfold ret. eexists _, _. split; [reflexivity |]. split.
      * exact H2.
      * discriminate.
Qed.

Lemma as_float32_dtype a : dtype_of (as_float32 a) = Float float32.
Proof. destruct a as [d sh l | [|] sh l]; reflexivity. Qed.

Lemma isub_float a c :
  is_floating (dtype_of a) = true ->
  exists b, isub a c = Ok b /\ dtype_of b = dtype_of a.
Proof. destruct a; [discriminate |]. intros _. eexists. split; reflexivity. Qed.

Lemma idiv_float a c :
  is_floating (dtype_of a) = true ->
  exists b, idiv a c = Ok b /\ dtype_of b = dtype_of a.
Proof. destruct a; [discriminate |]. intros _. eexists. split; reflexivity. Qed.

(** On a floating array the rescaling succeeds and keeps the type. *)
Lemma rescaled_float clim a :
  is_floating (dtype_of a) = true ->
  exists b, rescaled clim a = Ok b /\ dtype_of b = dtype_of a.
Proof.
  intros Hf. unfold rescaled.
  destruct (num_eq (NpFloat float32 (fst clim)) (NpFloat float32 (snd clim))).
  - destruct (num_ne (NpFloat float32 (fst clim)) (PyInt 0));
      [apply (idiv_float _ _ Hf) | eauto].
  - destruct (isub_float a (fst clim) Hf) as (b1 & -> & Hb1). cbn.
    rewrite <- Hb1 in Hf.
    destruct (idiv_float b1 (fsub float32 (snd clim) (fst clim)) Hf) as (b & -> & Hb).
    exists b. split; [reflexivity | congruence].
Qed.

(** C10: with [copy=True], [_scale_data_on_cpu] returns, whatever the
    element type of the input and the range; the caller's array and
    every attribute of the texture are as they were, all arithmetic
    having been applied to a new array, and the array returned is a
    float32 array at a reference of its own. *)
Theorem rescale_copy_leaves_input
    (should_cast_to_f32 : dtype -> bool) (s : state) (data : loc) (a : ndarray)
    (clim : spec_float * spec_float) :
  heap s !! data = Some a ->
  exists l h b,
    CPUScaledTextureMixIn._scale_data_on_cpu should_cast_to_f32 data clim true s
      = (Ok l, with_heap h s) /\
    h !! data = Some a /\
    l <> data /\
    h !! l = Some b /\
    dtype_of b = Float float32.
Proof.
  intros Hd.
  destruct (rescaled_float clim (as_float32 a)) as (b & Hb & Hdt);
    [rewrite as_float32_dtype; reflexivity |].
  destruct (scale_data_on_cpu_run should_cast_to_f32 s data a clim true b Hd
              (or_introl eq_refl) Hb) as (l & h & Hrun & Hl & Hcopy).
  destruct (Hcopy eq_refl) as [Hne Hkeep].
  exists l, h. eexists. repeat split; try eassumption.
  destruct (should_cast_to_f32 (dtype_of b)); [apply as_float32_dtype |].
  rewrite Hdt. apply as_float32_dtype.
Qed.

(** ** Uploads of the CPU class *)

Lemma cpu_upload_single should_cast_to_f32 s data a offset copy clim b :
  heap s !! data = Some a ->
  single_channel (_ndim s) a ->
  limits_of (_clim s) a = Ok clim ->
  copy = true \/ is_floating (dtype_of a) = true ->
  rescaled clim (if copy then as_float32 a else a) = Ok b ->
  exists l h,
    CPUScaledTextureMixIn.scale_and_set_data should_cast_to_f32 data offset copy s
      = (Ok tt, uploaded s a clim h (l, offset, copy)) /\
    h !! l = Some (if should_cast_to_f32 (dtype_of b) then as_float32 b else b) /\
    (copy = true -> l <> data /\ h !! data = Some a).
Proof.
  intros Hd Hsingle Hlim Hguard Hr.
  unfold CPUScaledTextureMixIn.scale_and_set_data.
  rewrite (bind_ok _ _ _ _ _ (deref_some _ _ _ Hd)).
  set (s0 := with_data_dtype (Some (dtype_of a)) s).
  unfold modify at 1, bind at 1. fold s0.
  unfold get at 1, bind at 1. unfold get at 1, bind at 1.
  change (_clim s0) with (_clim s). change (_ndim s0) with (_ndim s).
  assert (Hs : (if Nat.eqb (ndim a) (_ndim s) then ret true
                else n <- lift (shape_at a (_ndim s));; ret (Nat.eqb n 1)) s0
               = (Ok true, s0)).
  { destruct (Nat.eqb_spec (ndim a) (_ndim s)) as [| Hne]; [reflexivity |].
    destruct Hsingle as [| Hsh]; [contradiction |].
    unfold lift, bind, ret, shape_at. rewrite Hsh. reflexivity. }
  rewrite (bind_ok _ _ _ _ _ Hs).
  assert (Hc : match _clim s with
               | ClimUnset => raise TypeError
               | ClimAuto =>
                   lo <- lift (np_min a);;
                   hi <- lift (np_max a);;
                   ret (scalar_to_float32 lo, scalar_to_float32 hi)
               | ClimPair c0 c1 =>
                   c0 <- lift (np_float32 c0);;
                   c1 <- lift (np_float32 c1);;
                   ret (c0, c1)
               end s0 = (Ok clim, s0)).
  { unfold limits_of in Hlim. destruct (_clim s) as [| | c0 c1].
    - discriminate.
    - unfold lift, bind, ret.
      destruct (np_min a) as [lo |]; [| discriminate].
      destruct (np_max a) as [hi |]; [| discriminate].
      cbn in Hlim. congruence.
    - unfold lift, bind, ret.
      destruct (np_float32 c0) as [x |]; [| discriminate].
      destruct (np_float32 c1) as [y |]; [| discriminate].
      cbn in Hlim. congruence. }
  assert (Hd0 : heap s0 !! data = Some a) by exact Hd.
  destruct (scale_data_on_cpu_run should_cast_to_f32 s0 data a clim copy b Hd0 Hguard Hr)
    as (l & h & Hrun & Hl & Hcopy).
  exists l, h. split; [| split; assumption].
  cbv iota. unfold bind at 1. unfold bind at 1. rewrite Hc.
  unfold bind at 1. rewrite Hrun. reflexivity.
Qed.

(** A single-channel upload with resolvable limits that passes the
    in-place guard succeeds. *)
Lemma cpu_upload_single_ok should_cast_to_f32 s data a offset copy clim :
  heap s !! data = Some a ->
  single_channel (_ndim s) a ->
  limits_of (_clim s) a = Ok clim ->
  copy = true \/ is_floating (dtype_of a) = true ->
  exists l h,
    CPUScaledTextureMixIn.scale_and_set_data should_cast_to_f32 data offset copy s
      = (Ok tt, uploaded s a clim h (l, offset, copy)).
Proof.
  intros Hd Hsingle Hlim Hguard.
  assert (Hf : is_floating (dtype_of (if copy then as_float32 a else a)) = true).
  { destruct copy; [rewrite as_float32_dtype; reflexivity |].
    destruct Hguard; [discriminate | assumption]. }
  destruct (rescaled_float clim _ Hf) as (b & Hb & _).
  destruct (cpu_upload_single should_cast_to_f32 s data a offset copy _ b
              Hd Hsingle Hlim Hguard Hb) as (l & h & Hrun & _).
  eauto.
Qed.

(** ** Format resolution of the GPU class *)

(** C1 on the code: format resolution called with ['auto'] and no data
    emits the warning and then raises [AttributeError], because
    [_get_gl_tex_format] calls [.replace] on the [None] that
    [_handle_auto_texture_format] hands back. The constructor never
    gets there: it replaces the missing data by the representative
    array first, so it emits no warning, decides on ['rgba32f'] and
    sets [_auto_texture_format]. *)
Theorem gpu_auto_format_without_data
    (should_cast_to_f32 : dtype -> bool) (format : option string) (s : state) :
  GPUScaledTextureMixin._handle_auto_texture_format (FmtStr "auto") None s
    = (Ok FmtNone, with_warning GPUScaledTextureMixin.msg_auto_no_data s) /\
  GPUScaledTextureMixin._get_texture_format_for_data
      should_cast_to_f32 None format (FmtStr "auto") s
    = (Raise AttributeError, with_warning GPUScaledTextureMixin.msg_auto_no_data s) /\
  GPUScaledTextureMixin.__init__ should_cast_to_f32 None None (FmtStr "auto") (new_object 2)
    = (Ok tt,
       mkState 2 ClimUnset None None true (FmtStr "rgba32f") [10; 10; 4]%nat [] [] ∅ []).
Proof.
  split; [reflexivity |]. split; [| reflexivity].
  unfold GPUScaledTextureMixin._get_texture_format_for_data,
    _ScaledTextureMixin._data_num_channels.
  destruct (decide (format = Some "luminance")); reflexivity.
Qed.

(** ** [_compute_clim] of the GPU class *)

(** C2 on the code: for the 3-D texture with [_clim = 'auto'],
    [_compute_clim] tests [data.ndim == 2 or data.shape[2] == 1]
    whatever [_ndim] is, so the single-channel volume, whose minimum
    and maximum are 5 and 7, is taken for multi-channel data and gets
    the default limits (0, 1). The CPU class, which tests against
    [_ndim], records (5, 7) for the same upload. *)
Theorem gpu_compute_clim_volume (should_cast_to_f32 : dtype -> bool) :
  let s := with_clim ClimAuto (new_object 3) in
  let s_cpu := with_heap {[ 0%nat := volume ]} s in
  np_min volume = Ok (FloatScalar float32 (f32 5)) /\
  np_max volume = Ok (FloatScalar float32 (f32 7)) /\
  GPUScaledTextureMixin._compute_clim volume s
    = (Ok (ClimPair (PyInt 0) (PyInt 1)), s) /\
  _data_limits
    (snd (CPUScaledTextureMixIn.scale_and_set_data should_cast_to_f32 0%nat None true s_cpu))
    = Some (NpFloat float32 (f32 5), NpFloat float32 (f32 7)).
Proof.
  cbn zeta. repeat split; try reflexivity.
  edestruct (cpu_upload_single_ok should_cast_to_f32
               (with_heap {[ 0%nat := volume ]} (with_clim ClimAuto (new_object 3)))
               0%nat volume None true) as (l & h & ->);
    [reflexivity | left; reflexivity | reflexivity | left; reflexivity |].
  reflexivity.
Qed.

(** For the test [_compute_clim] makes, which is the single-channel
    test of a 2-D texture, the split under ['auto'] is that of the CPU
    class: minimum and maximum (as float32) for single-channel data, the
    default limits of the type otherwise. The second part is also what
    a 3-D texture gets for every single-channel volume whose third axis
    is not 1. *)
Lemma gpu_compute_clim_2d (s : state) (data : ndarray) :
  _clim s = ClimAuto ->
  (forall lo hi,
     single_channel 2 data -> np_min data = Ok lo -> np_max data = Ok hi ->
     GPUScaledTextureMixin._compute_clim data s
     = (Ok (clim_of (scalar_to_float32 lo, scalar_to_float32 hi)), s)) /\
  (forall n,
     ndim data <> 2%nat -> shape_of data !! 2%nat = Some n -> n <> 1%nat ->
     GPUScaledTextureMixin._compute_clim data s
     = (rbind (_ScaledTextureMixin._get_default_clims data)
          (fun c => Ok (ClimPair (fst c) (snd c))), s)).
Proof.
  intros Hauto. unfold GPUScaledTextureMixin._compute_clim, single_channel. split.
  - intros lo hi Hsingle Hlo Hhi. unfold bind, get, lift, ret, shape_at.
    rewrite Hauto, Hlo, Hhi.
    destruct (Nat.eqb_spec (ndim data) 2) as [| Hne]; [reflexivity |].
    destruct Hsingle as [| ->]; [contradiction | reflexivity].
  - intros n Hnd Hsh Hn. unfold bind, get, lift, ret, shape_at.
    rewrite Hauto, Hsh.
    destruct (Nat.eqb_spec (ndim data) 2) as [| _]; [contradiction |].
    destruct (Nat.eqb_spec n 1) as [| _]; [contradiction |].
    destruct (_ScaledTextureMixin._get_default_clims data); reflexivity.
Qed.

(** An 8-bit RGB image under ['auto'] gets (0, 255) in both classes,
    not the extrema 10 and 120 of its pixels. *)
Example rgb8_default_limits :
  fst (GPUScaledTextureMixin._compute_clim rgb8 (with_clim ClimAuto gpu_r32f))
    = Ok (ClimPair (PyInt 0) (PyInt 255)) /\
  _data_limits
    (snd (CPUScaledTextureMixIn.scale_and_set_data wider_than_f32 0%nat None true
            (with_heap {[ 0%nat := rgb8 ]} (with_clim ClimAuto (new_object 2)))))
    = Some (PyInt 0, PyInt 255).
Proof. split; vm_compute; reflexivity. Qed.

(** ** Format changes of the GPU class *)

Lemma shape_last_zeros d sh n : shape_last (zeros d (sh ++ [n])) = Ok n.
Proof. unfold shape_last. destruct d; cbn; rewrite last_snoc; reflexivity. Qed.

Lemma rep_array_channels s data n :
  channels_of (_ndim s) data = Ok n ->
  (shape_repr <- _ScaledTextureMixin._create_rep_array (Some data) None;;
   lift (shape_last shape_repr)) s = (Ok n, s).
Proof.
  unfold channels_of, _ScaledTextureMixin._create_rep_array,
    _ScaledTextureMixin._data_num_channels.
  intros H. cbn [decide]. unfold bind, get, ret, lift.
  destruct (decide (None = Some "luminance")) as [Habs |]; [discriminate Habs |].
  destruct (Nat.eqb (ndim data) (_ndim s + 1)).
  - rewrite H. rewrite shape_last_zeros. reflexivity.
  - injection H as <-. rewrite shape_last_zeros. reflexivity.
Qed.

Lemma internalformat_will_change_run should_cast_to_f32 s data f :
  resolved_format should_cast_to_f32 (_ndim s) data = Ok f ->
  GPUScaledTextureMixin._internalformat_will_change should_cast_to_f32 data s
    = (Ok (GPUScaledTextureMixin.fmt_ne f (internalformat s)), s).
Proof.
  unfold resolved_format. intros H.
  destruct (channels_of (_ndim s) data) as [n |] eqn:Hn; [| discriminate].
  cbn in H. pose proof (rep_array_channels s data n Hn) as Hrep.
  unfold GPUScaledTextureMixin._internalformat_will_change.
  unfold bind in *.
  destruct (_ScaledTextureMixin._create_rep_array (Some data) None s) as [[rep | e] s1];
    [| discriminate Hrep].
  rewrite Hrep. unfold lift, get, ret. rewrite H. reflexivity.
Qed.

(** C6: when the format resolved for the data equals the current
    internal format, [_reformat_if_necessary] changes nothing; when it
    differs and [_auto_texture_format] is set, the texture is resized
    to the data's shape with the new format; when it differs and the
    flag is not set, [RuntimeError] is raised and nothing is resized or
    changed. *)
Theorem reformat_if_necessary_cases
    (should_cast_to_f32 : dtype -> bool) (s : state) (data : ndarray) (f : string) :
  resolved_format should_cast_to_f32 (_ndim s) data = Ok f ->
  GPUScaledTextureMixin._reformat_if_necessary should_cast_to_f32 data s
  = if negb (GPUScaledTextureMixin.fmt_ne f (internalformat s)) then (Ok tt, s)
    else if _auto_texture_format s then
      (Ok tt, with_storage (shape_of data) (FmtStr f)
                (with_resize_call (shape_of data, f) s))
    else (Raise (RuntimeError GPUScaledTextureMixin.msg_not_auto), s).
Proof.
  intros H. unfold GPUScaledTextureMixin._reformat_if_necessary.
  rewrite (bind_ok _ _ _ _ _ (internalformat_will_change_run _ _ _ _ H)).
  destruct (GPUScaledTextureMixin.fmt_ne f (internalformat s)); [| reflexivity].
  cbn [negb]. unfold get at 1. unfold bind at 1.
  destruct (_auto_texture_format s); [| reflexivity].
  unfold resolved_format in H.
  destruct (channels_of (_ndim s) data) as [n |] eqn:Hn; [| discriminate].
  cbn in H. pose proof (rep_array_channels s data n Hn) as Hrep.
  unfold bind in *.
  destruct (_ScaledTextureMixin._create_rep_array (Some data) None s) as [[rep | e] s1];
    [| discriminate Hrep].
  rewrite Hrep. unfold lift. rewrite H. reflexivity.
Qed.

(** ** Facts of float32 arithmetic *)

Lemma div_eucl_shiftl (m : positive) (n : Z) :
  0 <= n -> Z.div_eucl (Z.shiftl (Zpos m) n) (Zpos m) = (2 ^ n, 0).
Proof.
  intros Hn. rewrite Z.shiftl_mul_pow2 by assumption.
  pose proof (Z.div_mul (2 ^ n) (Zpos m)) as Hd.
  pose proof (Z.mod_mul (2 ^ n) (Zpos m)) as Hm.
  rewrite (Z.mul_comm (Zpos m)).
  unfold Z.div, Z.modulo in *.
  destruct (Z.div_eucl (2 ^ n * Z.pos m) (Z.pos m)) as [q r].
  rewrite Hd, Hm by discriminate. reflexivity.
Qed.

(** A finite non-zero float32 divided by itself is 1. *)
Lemma fdiv_self sg m e :
  fdiv float32 (S754_finite sg m e) (S754_finite sg m e) = f32_one.
Proof.
  unfold fdiv, SFdiv, SFdiv_core_binary. cbn [prec emax].
  replace (Zdigits2 (Z.pos m) + e - (Zdigits2 (Z.pos m) + e)) with 0 by lia.
  replace (e - e) with 0 by lia.
  change (Z.min (fexp 24 128 0) 0) with (-24).
  change (0 - -24) with 24. cbv beta iota zeta.
  rewrite (div_eucl_shiftl m 24) by lia.
  assert (Hloc : new_location (Z.pos m) 0 = loc_Exact).
  { unfold new_location. destruct (Z.even (Z.pos m)); reflexivity. }
  rewrite Hloc. destruct sg; vm_compute; reflexivity.
Qed.

(** A float32 that is not an infinity or NaN minus itself is +0. *)
Lemma fsub_self x :
  is_inf x = false -> is_nan x = false -> fsub float32 x x = S754_zero false.
Proof.
  destruct x as [[|] | | | sg m e]; cbn; try discriminate; try reflexivity.
  intros _ _. unfold fsub, SFsub. rewrite Z.sub_diag. reflexivity.
Qed.

(** A finite difference has finite operands. *)
Lemma fsub_finite_operand x y sg m e :
  fsub float32 x y = S754_finite sg m e -> is_inf y = false /\ is_nan y = false.
Proof.
  destruct x as [[|] | [|] | | sx mx ex], y as [[|] | [|] | | sy my ey];
    cbn; try discriminate; auto.
Qed.

(** Rounding to float32 keeps a float that is one already. *)
Lemma round_to_valid sg m e :
  valid_binary 24 128 (S754_finite sg m e) = true ->
  round_to float32 (S754_finite sg m e) = S754_finite sg m e.
Proof.
  cbn [valid_binary round_to prec emax]. unfold bounded, canonical_mantissa. intros H.
  apply andb_true_iff in H as [Hc Hb]. apply Z.eqb_eq in Hc.
  assert (Hr : binary_round 24 128 sg m e = S754_finite sg m e).
  { unfold binary_round. rewrite Hc. unfold shl_align. rewrite Z.sub_diag.
    unfold binary_round_aux, shr_fexp. cbn [shr_record_of_loc Zdigits2].
    rewrite Hc, Z.sub_diag.
    cbn [shr shr_m loc_of_shr_record round_nearest_even Zdigits2 shr_record_of_loc].
    rewrite Hc, Z.sub_diag. cbn [shr shr_m]. rewrite Hb. reflexivity. }
  destruct sg; cbn [cond_Zopp Z.opp binary_normalize]; exact Hr.
Qed.

(** ** [clim_normalized] of the CPU class *)

Lemma clim_normalized_unit s lo hi sg m e :
  _data_limits s = Some (NpFloat float32 lo, NpFloat float32 hi) ->
  _clim s = ClimPair (NpFloat float32 lo) (NpFloat float32 hi) ->
  fsub float32 hi lo = S754_finite sg m e ->
  CPUScaledTextureMixIn.clim_normalized s
    = (Ok (NpFloat float32 (S754_zero sg), NpFloat float32 f32_one), s).
Proof.
  intros Hl Hc Hw. unfold CPUScaledTextureMixIn.clim_normalized.
  unfold bind, get, lift, ret. rewrite Hl, Hc. cbn [num_sub num_div].
  destruct (fsub_finite_operand _ _ _ _ _ Hw) as [Hi Hn].
  rewrite (fsub_self lo Hi Hn), Hw, fdiv_self. reflexivity.
Qed.

(** ** C3: the data limits of an upload *)

(** C3, as the code has it: after a floating single-channel array with
    elements is uploaded to the CPU class under [_clim = 'auto'], the
    recorded data limits are the minimum and maximum of the array
    converted to float32; for a float32 array they are the minimum and
    maximum themselves. *)
Theorem cpu_upload_records_limits
    (should_cast_to_f32 : dtype -> bool) (s : state) (data : loc) (a : ndarray)
    (offset : option (list nat)) (copy : bool) (lo hi : scalar) :
  heap s !! data = Some a ->
  is_floating (dtype_of a) = true ->
  single_channel (_ndim s) a ->
  _clim s = ClimAuto ->
  np_min a = Ok lo ->
  np_max a = Ok hi ->
  exists s',
    CPUScaledTextureMixIn.scale_and_set_data should_cast_to_f32 data offset copy s
      = (Ok tt, s') /\
    _data_limits s'
      = Some (NpFloat float32 (scalar_to_float32 lo), NpFloat float32 (scalar_to_float32 hi)) /\
    (dtype_of a = Float float32 ->
     exists x y, lo = FloatScalar float32 x /\ hi = FloatScalar float32 y /\
                 _data_limits s' = Some (NpFloat float32 x, NpFloat float32 y)).
Proof.
  intros Hd Hf Hsingle Hauto Hlo Hhi.
  assert (Hlim : limits_of (_clim s) a = Ok (scalar_to_float32 lo, scalar_to_float32 hi)).
  { rewrite Hauto. unfold limits_of. rewrite Hlo, Hhi. reflexivity. }
  destruct (cpu_upload_single_ok should_cast_to_f32 s data a offset copy _
              Hd Hsingle Hlim (or_intror Hf)) as (l & h & Hrun).
  eexists. split; [exact Hrun |]. split; [reflexivity |].
  intros Hdt. destruct a as [d sh l0 | d sh [| x0 l0]]; try discriminate.
  cbn in Hdt. injection Hdt as ->. cbn in Hlo, Hhi.
  injection Hlo as <-. injection Hhi as <-.
  eexists _, _. repeat split; reflexivity.
Qed.

(** C3 as stated fails on float64 input: the minimum and maximum of
    the image are 0.1 and 0.2, the recorded limits are their float32
    roundings, which compare unequal to them. *)
Lemma cpu_upload_limits_counterexample :
  valid_binary 53 1024 tenth = true /\ valid_binary 53 1024 fifth = true /\
  np_min image64 = Ok (FloatScalar float64 tenth) /\
  np_max image64 = Ok (FloatScalar float64 fifth) /\
  exists lo hi,
    _data_limits
      (snd (CPUScaledTextureMixIn.scale_and_set_data wider_than_f32 0%nat None true
              auto_with_image64))
      = Some (lo, hi) /\
    num_eq lo (NpFloat float64 tenth) = false /\
    num_eq hi (NpFloat float64 fifth) = false.
Proof.
  repeat (split; [reflexivity |]).
  eexists _, _. split; [vm_compute; reflexivity |].
  split; vm_compute; reflexivity.
Qed.

(** ** C4: equal limits *)

(** C4, as the code has it: when the call passes the in-place guard
    ([copy] is true or the data is floating) and [clim[0] == clim[1]],
    [_scale_data_on_cpu] returns without error; the array it works on
    (the float32 copy, or the input itself) is divided by [clim[0]]
    when that is not 0 and left as it is otherwise, and is converted to
    float32 at the end where [should_cast_to_f32] asks for it. *)
Theorem rescale_equal_limits
    (should_cast_to_f32 : dtype -> bool) (s : state) (data : loc) (a : ndarray)
    (c0 c1 : spec_float) (copy : bool) :
  heap s !! data = Some a ->
  copy = true \/ is_floating (dtype_of a) = true ->
  num_eq (NpFloat float32 c0) (NpFloat float32 c1) = true ->
  exists l h b,
    CPUScaledTextureMixIn._scale_data_on_cpu should_cast_to_f32 data (c0, c1) copy s
      = (Ok l, with_heap h s) /\
    h !! l = Some (if should_cast_to_f32 (dtype_of b) then as_float32 b else b) /\
    (if num_ne (NpFloat float32 c0) (PyInt 0) then
       idiv (if copy then as_float32 a else a) c0 = Ok b
     else b = (if copy then as_float32 a else a)).
Proof.
  intros Hd Hguard Heq.
  assert (Hf : is_floating (dtype_of (if copy then as_float32 a else a)) = true).
  { destruct copy; [rewrite as_float32_dtype; reflexivity |].
    destruct Hguard; [discriminate | assumption]. }
  assert (Hb : exists b,
             rescaled (c0, c1) (if copy then as_float32 a else a) = Ok b /\
             (if num_ne (NpFloat float32 c0) (PyInt 0) then
                idiv (if copy then as_float32 a else a) c0 = Ok b
              else b = (if copy then as_float32 a else a))).
  { unfold rescaled. cbn [fst snd]. rewrite Heq.
    destruct (num_ne (NpFloat float32 c0) (PyInt 0)).
    - destruct (idiv_float _ c0 Hf) as (b & Hb & _). exists b. split; exact Hb.
    - eexists. split; reflexivity. }
  destruct Hb as (b & Hb & Hshape).
  destruct (scale_data_on_cpu_run should_cast_to_f32 s data a (c0, c1) copy b
              Hd Hguard Hb) as (l & h & Hrun & Hl & _).
  exists l, h, b. repeat split; assumption.
Qed.

(** C4 as stated fails in two ways. Without a copy, an integer array
    with equal limits raises [ValueError]; and with limits (0, 0) a
    float64 array is not returned unchanged: the element 0.1 comes back
    as its float32 rounding, which compares unequal to it. *)
Lemma rescale_equal_limits_counterexample :
  CPUScaledTextureMixIn._scale_data_on_cpu wider_than_f32 0%nat (f32 2, f32 2) false
      auto_with_image16
    = (Raise (ValueError CPUScaledTextureMixIn.msg_no_copy), auto_with_image16) /\
  exists l s' x y,
    CPUScaledTextureMixIn._scale_data_on_cpu wider_than_f32 0%nat (f32 0, f32 0) true
      auto_with_image64 = (Ok l, s') /\
    heap s' !! l = Some (FloatArray float32 [1; 2]%nat [x; y]) /\
    num_eq (NpFloat float32 x) (NpFloat float64 tenth) = false.
Proof.
  split; [reflexivity |].
  eexists _, _, _, _. split; [vm_compute; reflexivity |].
  split; vm_compute; reflexivity.
Qed.

(** ** C7: normalising the limits of the last upload *)

(** C7, as the code has it: after a single-channel upload under
    colour limits (c0, c1) whose float32 width [c1 - c0] is finite and
    not zero, the recorded data limits and [_clim] are both the float32
    pair, and [clim_normalized] is (0, 1): a zero (of the sign of the
    width) and exactly 1. *)
Theorem cpu_upload_then_normalized
    (should_cast_to_f32 : dtype -> bool) (s : state) (data : loc) (a : ndarray)
    (offset : option (list nat)) (copy : bool) (c0 c1 : num) (lo hi : spec_float)
    (sg : bool) (m : positive) (e : Z) :
  heap s !! data = Some a ->
  single_channel (_ndim s) a ->
  copy = true \/ is_floating (dtype_of a) = true ->
  _clim s = ClimPair c0 c1 ->
  np_float32 c0 = Ok lo ->
  np_float32 c1 = Ok hi ->
  fsub float32 hi lo = S754_finite sg m e ->
  exists s',
    CPUScaledTextureMixIn.scale_and_set_data should_cast_to_f32 data offset copy s
      = (Ok tt, s') /\
    _data_limits s' = Some (NpFloat float32 lo, NpFloat float32 hi) /\
    _clim s' = ClimPair (NpFloat float32 lo) (NpFloat float32 hi) /\
    CPUScaledTextureMixIn.clim_normalized s'
      = (Ok (NpFloat float32 (S754_zero sg), NpFloat float32 f32_one), s') /\
    num_eq (NpFloat float32 (S754_zero sg)) (PyInt 0) = true /\
    num_eq (NpFloat float32 f32_one) (PyInt 1) = true.
Proof.
  intros Hd Hsingle Hguard Hc Hlo Hhi Hw.
  assert (Hlim : limits_of (_clim s) a = Ok (lo, hi)).
  { rewrite Hc. unfold limits_of. rewrite Hlo, Hhi. reflexivity. }
  destruct (cpu_upload_single_ok should_cast_to_f32 s data a offset copy _
              Hd Hsingle Hlim Hguard) as (l & h & Hrun).
  eexists. split; [exact Hrun |].
  split; [reflexivity |]. split; [reflexivity |].
  split; [| split; reflexivity].
  apply (clim_normalized_unit _ lo hi sg m e); [reflexivity | reflexivity | exact Hw].
Qed.

(** C7 as stated fails for a range with equal ends: after the upload
    under limits (1, 1) both the data limits and [_clim] are (1, 1) and
    [clim_normalized] is (NaN, NaN). *)
Lemma cpu_normalized_equal_limits_counterexample :
  exists s',
    CPUScaledTextureMixIn.scale_and_set_data wider_than_f32 0%nat None true flat_with_image16
      = (Ok tt, s') /\
    _data_limits s' = Some (NpFloat float32 f32_one, NpFloat float32 f32_one) /\
    _clim s' = ClimPair (NpFloat float32 f32_one) (NpFloat float32 f32_one) /\
    fst (CPUScaledTextureMixIn.clim_normalized s')
      = Ok (NpFloat float32 S754_nan, NpFloat float32 S754_nan).
Proof.
  eexists. split; [vm_compute; reflexivity |].
  repeat split; vm_compute; reflexivity.
Qed.

(** The int16 image with values from -100 to 500 under ['auto']: the
    uploaded float32 buffer holds 0, 0.5 and 1, the input is as it was,
    and [clim_normalized] is (0, 1). *)
Example int16_upload_scenario :
  exists s',
    CPUScaledTextureMixIn.scale_and_set_data wider_than_f32 0%nat None true auto_with_image16
      = (Ok tt, s') /\
    set_data_calls s' = [(1%nat, None, true)] /\
    heap s' !! 1%nat
      = Some (FloatArray float32 [1; 3]%nat
                [S754_zero false; S754_finite false 8388608 (-24); f32_one]) /\
    heap s' !! 0%nat = Some image16 /\
    _data_limits s' = Some (NpFloat float32 (f32 (-100)), NpFloat float32 (f32 500)) /\
    fst (CPUScaledTextureMixIn.clim_normalized s')
      = Ok (NpFloat float32 (S754_zero false), NpFloat float32 f32_one).
Proof.
  eexists. split; [vm_compute; reflexivity |].
  repeat split; vm_compute; reflexivity.
Qed.

(** ** The theorems at concrete inputs *)

Lemma cpu_upload_records_limits_witness :
  heap auto_with_image32 !! 0%nat = Some image32 /\
  single_channel (_ndim auto_with_image32) image32 /\
  exists s',
    CPUScaledTextureMixIn.scale_and_set_data wider_than_f32 0%nat None false auto_with_image32
      = (Ok tt, s') /\
    _data_limits s' = Some (NpFloat float32 (f32 5), NpFloat float32 (f32 7)) /\
    (dtype_of image32 = Float float32 ->
     exists x y, FloatScalar float32 (f32 5) = FloatScalar float32 x /\
                 FloatScalar float32 (f32 7) = FloatScalar float32 y /\
                 _data_limits s' = Some (NpFloat float32 x, NpFloat float32 y)).
Proof.
  split; [reflexivity |]. split; [left; reflexivity |].
  apply (cpu_upload_records_limits wider_than_f32 auto_with_image32 0%nat image32 None false
           (FloatScalar float32 (f32 5)) (FloatScalar float32 (f32 7)));
    [reflexivity | reflexivity | left; reflexivity | reflexivity
    | vm_compute; reflexivity | vm_compute; reflexivity].
Defined.

Lemma rescale_equal_limits_witness :
  heap auto_with_image16 !! 0%nat = Some image16 /\
  num_eq (NpFloat float32 (f32 2)) (NpFloat float32 (f32 2)) = true /\
  exists l h b,
    CPUScaledTextureMixIn._scale_data_on_cpu wider_than_f32 0%nat (f32 2, f32 2) true
      auto_with_image16 = (Ok l, with_heap h auto_with_image16) /\
    h !! l = Some (if wider_than_f32 (dtype_of b) then as_float32 b else b) /\
    (if num_ne (NpFloat float32 (f32 2)) (PyInt 0) then
       idiv (as_float32 image16) (f32 2) = Ok b
     else b = as_float32 image16).
Proof.
  split; [reflexivity |]. split; [reflexivity |].
  apply (rescale_equal_limits wider_than_f32 auto_with_image16 0%nat image16
           (f32 2) (f32 2) true);
    [reflexivity | left; reflexivity | reflexivity].
Defined.

Lemma reformat_if_necessary_cases_witness :
  resolved_format wider_than_f32 (_ndim gpu_r32f) rgb8 = Ok "rgb8" /\
  GPUScaledTextureMixin._reformat_if_necessary wider_than_f32 rgb8 gpu_r32f
  = (Ok tt, with_storage [2; 2; 3]%nat (FmtStr "rgb8")
              (with_resize_call ([2; 2; 3]%nat, "rgb8") gpu_r32f)).
Proof.
  split; [reflexivity |].
  exact (reformat_if_necessary_cases wider_than_f32 gpu_r32f rgb8 "rgb8" eq_refl).
Defined.

Lemma cpu_upload_then_normalized_witness :
  heap ranged_with_image16 !! 0%nat = Some image16 /\
  np_float32 (PyInt (-100)) = Ok (f32 (-100)) /\
  np_float32 (PyInt 500) = Ok (f32 500) /\
  fsub float32 (f32 500) (f32 (-100)) = f32 600 /\
  exists s',
    CPUScaledTextureMixIn.scale_and_set_data wider_than_f32 0%nat None true ranged_with_image16
      = (Ok tt, s') /\
    _data_limits s' = Some (NpFloat float32 (f32 (-100)), NpFloat float32 (f32 500)) /\
    _clim s' = ClimPair (NpFloat float32 (f32 (-100))) (NpFloat float32 (f32 500)) /\
    CPUScaledTextureMixIn.clim_normalized s'
      = (Ok (NpFloat float32 (S754_zero false), NpFloat float32 f32_one), s') /\
    num_eq (NpFloat float32 (S754_zero false)) (PyInt 0) = true /\
    num_eq (NpFloat float32 f32_one) (PyInt 1) = true.
Proof.
  split; [reflexivity |]. split; [reflexivity |]. split; [reflexivity |].
  split; [reflexivity |].
  apply (cpu_upload_then_normalized wider_than_f32 ranged_with_image16 0%nat image16 None true
           (PyInt (-100)) (PyInt 500) (f32 (-100)) (f32 500) false 9830400 (-14));
    [reflexivity | left; reflexivity | left; reflexivity | reflexivity
    | reflexivity | reflexivity | reflexivity].
Defined.

Lemma rescale_copy_leaves_input_witness :
  heap auto_with_image16 !! 0%nat = Some image16 /\
  exists l h b,
    CPUScaledTextureMixIn._scale_data_on_cpu wider_than_f32 0%nat
      (f32 (-100), f32 500) true auto_with_image16
      = (Ok l, with_heap h auto_with_image16) /\
    h !! 0%nat = Some image16 /\
    l <> 0%nat /\
    h !! l = Some b /\
    dtype_of b = Float float32.
Proof.
  split; [reflexivity |].
  apply (rescale_copy_leaves_input wider_than_f32 auto_with_image16 0%nat image16
           (f32 (-100), f32 500)).
  reflexivity.
Defined.

(** * Further properties of the module *)

(** ** What an upload leaves alone *)

Lemma keeps_ret {A B} (f : state -> B) (a : A) : keeps f (ret a).
Proof. intros s. reflexivity. Qed.

Lemma keeps_raise {A B} (f : state -> B) (e : exn) : keeps f (raise (A := A) e).
Proof. intros s. reflexivity. Qed.

Lemma keeps_lift {A B} (f : state -> B) (r : result A) : keeps f (lift r).
Proof. intros s. reflexivity. Qed.

Lemma keeps_get {A B} (f : state -> B) (g : state -> A) : keeps f (get g).
Proof. intros s. reflexivity. Qed.

Lemma keeps_deref {B} (f : state -> B) (l : loc) : keeps f (deref l).
Proof. intros s. unfold deref. destruct (heap s !! l); reflexivity. Qed.

Lemma keeps_bind {A B C} (f : state -> C) (c : M A) (k : A -> M B) :
  keeps f c -> (forall a, keeps f (k a)) -> keeps f (bind c k).
Proof.
  intros Hc Hk s. unfold bind. specialize (Hc s).
  destruct (c s) as [[a | e] s1]; cbn in *; [| exact Hc].
  rewrite (Hk a s1). exact Hc.
Qed.

Lemma keeps_modify {B} (f : state -> B) (g : state -> state) :
  (forall s, f (g s) = f s) -> keeps f (modify g).
Proof. intros H s. apply H. Qed.

Create HintDb keeps.
#[local] Hint Resolve keeps_ret keeps_raise keeps_lift keeps_get keeps_deref : keeps.

Ltac keeps_step :=
  match goal with
  | |- keeps _ (bind _ _) => apply keeps_bind; [| intros ?]
  | |- keeps _ (if ?b then _ else _) => destruct b
  | |- keeps _ (match ?x with _ => _ end) => destruct x
  | |- keeps _ (let _ := _ in _) => cbv zeta
  | |- keeps _ (modify _) => apply keeps_modify; intros ?; reflexivity
  | |- keeps _ (alloc _) => intros ?; reflexivity
  | |- keeps _ (store _ _) => intros ?; reflexivity
  | |- keeps _ (warn _) => intros ?; reflexivity
  | |- keeps _ _ => solve [auto with keeps]
  end.

Lemma keeps_rep_array {B} (f : state -> B) data format :
  keeps f (_ScaledTextureMixin._create_rep_array data format).
Proof.
  unfold _ScaledTextureMixin._create_rep_array, _ScaledTextureMixin._data_num_channels.
  repeat keeps_step.
Qed.

Lemma keeps_compute_clim {B} (f : state -> B) data :
  keeps f (GPUScaledTextureMixin._compute_clim data).
Proof. unfold GPUScaledTextureMixin._compute_clim. repeat keeps_step. Qed.

Lemma keeps_will_change {B} (f : state -> B) scf data :
  keeps f (GPUScaledTextureMixin._internalformat_will_change scf data).
Proof.
  unfold GPUScaledTextureMixin._internalformat_will_change.
  repeat first [apply keeps_rep_array | keeps_step].
Qed.

Lemma keeps_heap_reformat scf data :
  keeps heap (GPUScaledTextureMixin._reformat_if_necessary scf data).
Proof.
  unfold GPUScaledTextureMixin._reformat_if_necessary, BaseTexture._resize.
  repeat first [apply keeps_rep_array | apply keeps_will_change | keeps_step].
Qed.

Lemma keeps_uploads_reformat scf data :
  keeps set_data_calls (GPUScaledTextureMixin._reformat_if_necessary scf data).
Proof.
  unfold GPUScaledTextureMixin._reformat_if_necessary, BaseTexture._resize.
  repeat first [apply keeps_rep_array | apply keeps_will_change | keeps_step].
Qed.

Lemma keeps_limits_reformat scf data :
  keeps _data_limits (GPUScaledTextureMixin._reformat_if_necessary scf data).
Proof.
  unfold GPUScaledTextureMixin._reformat_if_necessary, BaseTexture._resize.
  repeat first [apply keeps_rep_array | apply keeps_will_change | keeps_step].
Qed.

(** A computation that records the call [call] of [set_data] when it
    returns and none when it raises. *)
Lemma uploads_once_bind {A B} (c : M A) (k : A -> M B) call :
  keeps set_data_calls c ->
  (forall a s, set_data_calls (snd (k a s))
               = if is_raise (fst (k a s)) then set_data_calls s
                 else (set_data_calls s ++ [call])%list) ->
  forall s, set_data_calls (snd (bind c k s))
            = if is_raise (fst (bind c k s)) then set_data_calls s
              else (set_data_calls s ++ [call])%list.
Proof.
  intros Hc Hk s. unfold bind. specialize (Hc s).
  destruct (c s) as [[a | e] s1]; cbn in *; [| exact Hc].
  rewrite (Hk a s1), Hc. reflexivity.
Qed.

(** X1: an upload to the GPU class never changes an array and never
    records data limits, whether it returns or raises; and it hands
    the caller's own array to [set_data], once, exactly when it
    returns. *)
Theorem gpu_upload_leaves_arrays
    (should_cast_to_f32 : dtype -> bool) (data : loc) (offset : option (list nat))
    (copy : bool) (s : state) :
  let run := GPUScaledTextureMixin.scale_and_set_data should_cast_to_f32 data offset copy s in
  heap (snd run) = heap s /\
  _data_limits (snd run) = _data_limits s /\
  set_data_calls (snd run)
  = if is_raise (fst run) then set_data_calls s
    else (set_data_calls s ++ [(data, offset, copy)])%list.
Proof.
  cbv zeta. split; [| split]; revert s.
  - change (keeps heap
              (GPUScaledTextureMixin.scale_and_set_data should_cast_to_f32 data offset copy)).
    unfold GPUScaledTextureMixin.scale_and_set_data,
      _ScaledTextureMixin.scale_and_set_data, BaseTexture.set_data.
    repeat first [apply keeps_heap_reformat | apply keeps_compute_clim | keeps_step].
  - change (keeps _data_limits
              (GPUScaledTextureMixin.scale_and_set_data should_cast_to_f32 data offset copy)).
    unfold GPUScaledTextureMixin.scale_and_set_data,
      _ScaledTextureMixin.scale_and_set_data, BaseTexture.set_data.
    repeat first [apply keeps_limits_reformat | apply keeps_compute_clim | keeps_step].
  - unfold GPUScaledTextureMixin.scale_and_set_data,
      _ScaledTextureMixin.scale_and_set_data, BaseTexture.set_data.
    apply uploads_once_bind; [auto with keeps | intros a].
    apply uploads_once_bind; [apply keeps_uploads_reformat | intros _].
    apply uploads_once_bind; [keeps_step | intros _].
    apply uploads_once_bind; [apply keeps_compute_clim | intros c].
    apply uploads_once_bind; [keeps_step | intros _].
    intros s. reflexivity.
Qed.


(** ** Format resolution and format changes *)

Lemma channels_of_ok nd data : exists n, channels_of nd data = Ok n.
Proof.
  unfold channels_of, shape_last, ndim.
  destruct (Nat.eqb_spec (length (shape_of data)) (nd + 1)) as [Hlen |]; [| eauto].
  destruct (shape_of data) as [| x l] using rev_ind; [cbn in Hlen; lia |].
  rewrite last_snoc. eauto.
Qed.

(** The format [_internalformat_will_change] and
    [_reformat_if_necessary] compute for the data, on every input. *)
Lemma new_format_run should_cast_to_f32 s data :
  (shape_repr <- _ScaledTextureMixin._create_rep_array (Some data) None;;
   n <- lift (shape_last shape_repr);;
   lift (GPUScaledTextureMixin._get_gl_tex_format should_cast_to_f32
           (FmtType (dtype_of data)) n)) s
  = (resolved_format should_cast_to_f32 (_ndim s) data, s).
Proof.
  destruct (channels_of_ok (_ndim s) data) as [n Hn].
  pose proof (rep_array_channels s data n Hn) as Hrep.
  unfold resolved_format. rewrite Hn. cbn [rbind].
  unfold bind in *.
  destruct (_ScaledTextureMixin._create_rep_array (Some data) None s) as [[rep | e] s1];
    [| discriminate Hrep].
  unfold lift in *. injection Hrep as -> ->. reflexivity.
Qed.

Lemma will_change_outcome should_cast_to_f32 s data :
  GPUScaledTextureMixin._internalformat_will_change should_cast_to_f32 data s
  = (rbind (resolved_format should_cast_to_f32 (_ndim s) data)
       (fun f => Ok (GPUScaledTextureMixin.fmt_ne f (internalformat s))), s).
Proof.
  pose proof (new_format_run should_cast_to_f32 s data) as H.
  unfold GPUScaledTextureMixin._internalformat_will_change. unfold bind in *.
  destruct (_ScaledTextureMixin._create_rep_array (Some data) None s) as [[rep | e] s1];
    [| injection H as <- <-; reflexivity].
  destruct (lift (shape_last rep) s1) as [[n | e] s2];
    [| injection H as <- <-; reflexivity].
  rewrite H. destruct (resolved_format should_cast_to_f32 (_ndim s) data); reflexivity.
Qed.

Lemma check_outcome should_cast_to_f32 s data :
  GPUScaledTextureMixin.check_data_format should_cast_to_f32 data s
  = (rbind (resolved_format should_cast_to_f32 (_ndim s) data)
       (fun f => if GPUScaledTextureMixin.fmt_ne f (internalformat s)
                    && negb (_auto_texture_format s)
                 then Raise (ValueError GPUScaledTextureMixin.msg_format_change)
                 else Ok tt), s).
Proof.
  unfold GPUScaledTextureMixin.check_data_format, bind.
  rewrite will_change_outcome.
  destruct (resolved_format should_cast_to_f32 (_ndim s) data) as [f |]; [| reflexivity].
  cbn [rbind]. unfold get.
  destruct (GPUScaledTextureMixin.fmt_ne f (internalformat s) && negb (_auto_texture_format s));
    reflexivity.
Qed.

Lemma reformat_outcome should_cast_to_f32 s data :
  GPUScaledTextureMixin._reformat_if_necessary should_cast_to_f32 data s
  = match resolved_format should_cast_to_f32 (_ndim s) data with
    | Raise e => (Raise e, s)
    | Ok f =>
        if negb (GPUScaledTextureMixin.fmt_ne f (internalformat s)) then (Ok tt, s)
        else if _auto_texture_format s then
          (Ok tt, with_storage (shape_of data) (FmtStr f)
                    (with_resize_call (shape_of data, f) s))
        else (Raise (RuntimeError GPUScaledTextureMixin.msg_not_auto), s)
    end.
Proof.
  pose proof (new_format_run should_cast_to_f32 s data) as H.
  unfold GPUScaledTextureMixin._reformat_if_necessary. unfold bind at 1.
  rewrite will_change_outcome.
  destruct (resolved_format should_cast_to_f32 (_ndim s) data) as [f |]; [| reflexivity].
  cbn [rbind]. destruct (GPUScaledTextureMixin.fmt_ne f (internalformat s)); [| reflexivity].
  cbn [negb]. unfold get at 1. unfold bind at 1.
  destruct (_auto_texture_format s); [| reflexivity].
  unfold bind in *.
  destruct (_ScaledTextureMixin._create_rep_array (Some data) None s) as [[rep | e] s1];
    [| discriminate H].
  destruct (lift (shape_last rep) s1) as [[n | e] s2]; [| discriminate H].
  rewrite H. reflexivity.
Qed.

(** X2: an upload the GPU class refuses for its format leaves the whole
    state as it was: nothing is recorded, resized or uploaded when the
    type has no internal format ([ValueError]) or when the format
    would have to change on a texture that was not created with
    ['auto'] ([RuntimeError]). *)
Theorem gpu_upload_refused_unchanged
    (should_cast_to_f32 : dtype -> bool) (s : state) (data : loc) (a : ndarray)
    (offset : option (list nat)) (copy : bool) :
  heap s !! data = Some a ->
  (forall e,
     resolved_format should_cast_to_f32 (_ndim s) a = Raise e ->
     GPUScaledTextureMixin.scale_and_set_data should_cast_to_f32 data offset copy s
     = (Raise e, s)) /\
  (forall f,
     resolved_format should_cast_to_f32 (_ndim s) a = Ok f ->
     GPUScaledTextureMixin.fmt_ne f (internalformat s) = true ->
     _auto_texture_format s = false ->
     GPUScaledTextureMixin.scale_and_set_data should_cast_to_f32 data offset copy s
     = (Raise (RuntimeError GPUScaledTextureMixin.msg_not_auto), s)).
Proof.
  intros Hd. unfold GPUScaledTextureMixin.scale_and_set_data.
  rewrite (bind_ok _ _ _ _ _ (deref_some _ _ _ Hd)).
  split.
  - intros e He. unfold bind at 1. rewrite reformat_outcome, He. reflexivity.
  - intros f Hf Hne Hauto. unfold bind at 1.
    rewrite reformat_outcome, Hf, Hne, Hauto. reflexivity.
Qed.

Lemma gpu_upload_refused_unchanged_witness :
  GPUScaledTextureMixin.scale_and_set_data wider_than_f32 0%nat None false locked_with_rgb8
  = (Raise (RuntimeError GPUScaledTextureMixin.msg_not_auto), locked_with_rgb8).
Proof.
  refine (proj2 (gpu_upload_refused_unchanged wider_than_f32 locked_with_rgb8
                   0%nat rgb8 None false _) "rgb8" _ _ _); reflexivity.
Defined.

(** X3: [check_data_format] of the GPU class never changes the state,
    and it raises exactly when [_reformat_if_necessary] would raise on
    the same data: a caller that checks first never has an upload
    refused for its format. *)
Theorem check_data_format_guards_reformat
    (should_cast_to_f32 : dtype -> bool) (s : state) (data : ndarray) :
  snd (GPUScaledTextureMixin.check_data_format should_cast_to_f32 data s) = s /\
  is_raise (fst (GPUScaledTextureMixin.check_data_format should_cast_to_f32 data s))
  = is_raise (fst (GPUScaledTextureMixin._reformat_if_necessary should_cast_to_f32 data s)).
Proof.
  rewrite check_outcome, reformat_outcome.
  destruct (resolved_format should_cast_to_f32 (_ndim s) data) as [f |]; [| split; reflexivity].
  cbn [rbind]. destruct (GPUScaledTextureMixin.fmt_ne f (internalformat s));
    destruct (_auto_texture_format s); split; reflexivity.
Qed.

(** X5: the GPU class gives two arrays the same answer to "would the
    format change" when they have the same number of channels and
    their types share an entry of the format table, as float32 and
    float64 do (and int8 with uint8, int16 with uint16). *)
Theorem shared_format_no_change
    (should_cast_to_f32 : dtype -> bool) (s : state) (a a' : ndarray) (token : string) :
  GPUScaledTextureMixin.dict_get (dtype_of a) GPUScaledTextureMixin._texture_dtype_format
    = Some token ->
  GPUScaledTextureMixin.dict_get (dtype_of a') GPUScaledTextureMixin._texture_dtype_format
    = Some token ->
  channels_of (_ndim s) a = channels_of (_ndim s) a' ->
  GPUScaledTextureMixin._internalformat_will_change should_cast_to_f32 a s
  = GPUScaledTextureMixin._internalformat_will_change should_cast_to_f32 a' s.
Proof.
  intros Ha Ha' Hch. rewrite !will_change_outcome. unfold resolved_format.
  rewrite Hch. destruct (channels_of (_ndim s) a') as [n |]; [| reflexivity].
  cbn [rbind]. unfold GPUScaledTextureMixin._get_gl_tex_format.
  cbn [GPUScaledTextureMixin.truthy GPUScaledTextureMixin.is_str andb negb].
  rewrite Ha, Ha'. reflexivity.
Qed.

Lemma shared_format_no_change_witness :
  GPUScaledTextureMixin._internalformat_will_change wider_than_f32 image32 gpu_r32f
  = GPUScaledTextureMixin._internalformat_will_change wider_than_f32 image64 gpu_r32f.
Proof.
  apply (shared_format_no_change wider_than_f32 gpu_r32f image32 image64 "r32f");
    reflexivity.
Defined.

(** ** Construction of a GPU texture *)

Lemma zeros_dtype d sh : dtype_of (zeros d sh) = d.
Proof. destruct d; reflexivity. Qed.

Lemma zeros_shape d sh : shape_of (zeros d sh) = sh.
Proof. destruct d; reflexivity. Qed.

Lemma num_channels_run s data format :
  exists n,
    _ScaledTextureMixin._data_num_channels data format s = (Ok n, s) /\
    (format = Some "luminance" -> n = 1%nat) /\
    (format <> Some "luminance" ->
     match data with
     | Some a => channels_of (_ndim s) a = Ok n
     | None => n = 4%nat
     end).
Proof.
  unfold _ScaledTextureMixin._data_num_channels.
  destruct (decide (format = Some "luminance")) as [Hl | Hl].
  - exists 1%nat. split; [reflexivity |]. split; [reflexivity | contradiction].
  - destruct data as [a |].
    + destruct (channels_of_ok (_ndim s) a) as [n Hn]. exists n.
      split; [| split; [contradiction | intros _; exact Hn]].
      unfold channels_of in Hn. unfold bind, get, lift, ret.
      destruct (Nat.eqb (ndim a) (_ndim s + 1)); [rewrite Hn; reflexivity |].
      injection Hn as <-. reflexivity.
    + exists 4%nat. split; [reflexivity |]. split; [contradiction | reflexivity].
Qed.


Lemma rep_array_run s data n :
  channels_of (_ndim s) data = Ok n ->
  _ScaledTextureMixin._create_rep_array (Some data) None s
  = (Ok (zeros (dtype_of data) (repeat 10%nat (_ndim s) ++ [n])), s).
Proof.
  intros Hn. destruct (num_channels_run s (Some data) None) as (m & Hrun & _ & Hd).
  specialize (Hd ltac:(discriminate)). cbn in Hd. rewrite Hn in Hd. injection Hd as <-.
  unfold _ScaledTextureMixin._create_rep_array.
  rewrite (bind_ok _ _ _ _ _ Hrun). reflexivity.
Qed.

Lemma rep_channels nd d n :
  channels_of nd (zeros d (repeat 10%nat nd ++ [n])) = Ok n.
Proof.
  unfold channels_of, ndim, shape_last. rewrite zeros_shape.
  rewrite length_app, repeat_length. cbn [length].
  rewrite Nat.eqb_refl, last_snoc. reflexivity.
Qed.

Lemma fmt_ne_same f : GPUScaledTextureMixin.fmt_ne f (FmtStr f) = false.
Proof. unfold GPUScaledTextureMixin.fmt_ne. rewrite String.eqb_refl. reflexivity. Qed.

(** Construction with ['auto'] from data: the flag is set before the
    format is looked up, so it is set also when the lookup raises. *)
Lemma gpu_init_auto_run should_cast_to_f32 s0 data n :
  channels_of (_ndim s0) data = Ok n ->
  GPUScaledTextureMixin.__init__ should_cast_to_f32 (Some data) None (FmtStr "auto") s0
  = let s' := with_auto_texture_format true
                (with_data_dtype (Some (dtype_of data))
                   (with_data_dtype None (with_clim ClimUnset s0))) in
    match GPUScaledTextureMixin._get_gl_tex_format should_cast_to_f32
            (FmtType (dtype_of data)) n with
    | Ok f => (Ok tt, with_storage (repeat 10%nat (_ndim s0) ++ [n]) (FmtStr f) s')
    | Raise e => (Raise e, s')
    end.
Proof.
  intros Hn. cbv zeta.
  set (rep := zeros (dtype_of data) (repeat 10%nat (_ndim s0) ++ [n])).
  set (s' := with_data_dtype (Some (dtype_of data))
               (with_data_dtype None (with_clim ClimUnset s0))).
  assert (Hrep : _ScaledTextureMixin._create_rep_array (Some data) None s' = (Ok rep, s')).
  { apply (rep_array_run s' data n). exact Hn. }
  assert (Hnum : _ScaledTextureMixin._data_num_channels (Some rep) None s' = (Ok n, s')).
  { destruct (num_channels_run s' (Some rep) None) as (m & Hrun & _ & Hd).
    specialize (Hd ltac:(discriminate)). cbn [_ndim s' with_data_dtype with_clim] in Hd.
    unfold rep in Hd. rewrite rep_channels in Hd. injection Hd as <-. exact Hrun. }
  unfold GPUScaledTextureMixin.__init__, _ScaledTextureMixin.__init__,
    _ScaledTextureMixin.init_scaling_texture.
  unfold bind at 1. unfold modify at 1. unfold bind at 1. unfold modify at 1.
  unfold bind at 1. unfold bind at 1. unfold modify at 1. cbn [option_map].
  fold s'. unfold bind at 1. rewrite Hrep.
  unfold GPUScaledTextureMixin._get_texture_format_for_data.
  unfold bind at 1. unfold bind at 1. rewrite Hnum.
  unfold GPUScaledTextureMixin._handle_auto_texture_format.
  cbn [String.eqb Ascii.eqb Bool.eqb].
  unfold bind, modify, ret, lift, BaseTexture.init. unfold rep at 1.
  rewrite zeros_dtype.
  destruct (GPUScaledTextureMixin._get_gl_tex_format should_cast_to_f32
              (FmtType (dtype_of data)) n) as [f | e]; [| reflexivity].
  unfold rep. rewrite zeros_shape. reflexivity.
Qed.



Lemma keeps_get_gl {B} (g : state -> B) scf data format fmt :
  fmt <> FmtStr "auto" ->
  keeps g (GPUScaledTextureMixin._get_texture_format_for_data scf data format fmt).
Proof.
  intros Hne. unfold GPUScaledTextureMixin._get_texture_format_for_data,
    GPUScaledTextureMixin._handle_auto_texture_format,
    _ScaledTextureMixin._data_num_channels.
  destruct fmt as [| str | d].
  - repeat keeps_step.
  - destruct (String.eqb_spec str "auto") as [-> | _]; [congruence |].
    repeat keeps_step.
  - repeat keeps_step.
Qed.

(** X19: the flag that allows format changes is set by nothing but a
    construction with ['auto']: a GPU texture constructed with any other
    format argument keeps the flag it had, whether the construction
    succeeds or raises, and neither an upload nor [set_clim] changes it. *)
Theorem auto_flag_only_from_auto
    (should_cast_to_f32 : dtype -> bool) (s : state) :
  (forall data format fmt,
     fmt <> FmtStr "auto" ->
     _auto_texture_format
       (snd (GPUScaledTextureMixin.__init__ should_cast_to_f32 data format fmt s))
     = _auto_texture_format s) /\
  (forall data offset copy,
     _auto_texture_format
       (snd (GPUScaledTextureMixin.scale_and_set_data should_cast_to_f32 data offset copy s))
     = _auto_texture_format s) /\
  (forall o,
     _auto_texture_format (snd (_ScaledTextureMixin.set_clim o s)) = _auto_texture_format s).
Proof.
  split; [| split].
  - intros data format fmt Hne. revert s.
    change (keeps _auto_texture_format
              (GPUScaledTextureMixin.__init__ should_cast_to_f32 data format fmt)).
    unfold GPUScaledTextureMixin.__init__, _ScaledTextureMixin.__init__,
      _ScaledTextureMixin.init_scaling_texture, BaseTexture.init.
    repeat first [apply keeps_rep_array | apply (keeps_get_gl _ _ _ _ _ Hne) | keeps_step].
  - intros data offset copy. revert s.
    change (keeps _auto_texture_format
              (GPUScaledTextureMixin.scale_and_set_data should_cast_to_f32 data offset copy)).
    unfold GPUScaledTextureMixin.scale_and_set_data,
      GPUScaledTextureMixin._reformat_if_necessary, BaseTexture._resize,
      _ScaledTextureMixin.scale_and_set_data, BaseTexture.set_data.
    repeat first [apply keeps_rep_array | apply keeps_will_change
                 | apply keeps_compute_clim | keeps_step].
  - intros o. revert s.
    change (keeps _auto_texture_format (_ScaledTextureMixin.set_clim o)).
    unfold _ScaledTextureMixin.set_clim. repeat keeps_step.
Qed.

(** ** Normalized formats and [clim_normalized] of the shared class *)

Lemma str_last_app p c r : str_last (p ++ String c r) = str_last (String c r).
Proof.
  induction p as [| a p IH]; [reflexivity |].
  change (String a p ++ String c r)%string with (String a (p ++ String c r)).
  destruct p as [| b p]; exact IH.
Qed.

(** The formats of the table end in ['f'] for the floating types and
    in a digit for the integer types, whatever the channels. *)
Lemma gl_format_last should_cast_to_f32 d n f :
  GPUScaledTextureMixin._get_gl_tex_format should_cast_to_f32 (FmtType d) n = Ok f ->
  exists c, str_last f = Some c /\ (Ascii.eqb c "f" || Ascii.eqb c "i") = is_floating d.
Proof.
  unfold GPUScaledTextureMixin._get_gl_tex_format.
  generalize (str_prefix n "rgba"). intros p H.
  destruct d as [[] | []]; cbn in H; try discriminate H;
    injection H as <-; rewrite str_last_app; eexists; split; reflexivity.
Qed.

Lemma is_normalized_run s f c :
  internalformat s = FmtStr f -> str_last f = Some c ->
  _ScaledTextureMixin.is_normalized s
  = (Ok (negb (Ascii.eqb c "f" || Ascii.eqb c "i")), s).
Proof.
  intros Hf Hc. unfold _ScaledTextureMixin.is_normalized, bind, get, ret.
  rewrite Hf, Hc. reflexivity.
Qed.

(** X6: on a texture whose internal format is the one the GPU class
    resolves for an element type, [is_normalized] says whether that
    type is an integer type: the integer types of the table are stored
    normalized, float32 and float64 are not. It neither raises nor
    changes the state. *)
Theorem is_normalized_of_resolved
    (should_cast_to_f32 : dtype -> bool) (d : dtype) (n : nat) (f : string) (s : state) :
  GPUScaledTextureMixin._get_gl_tex_format should_cast_to_f32 (FmtType d) n = Ok f ->
  internalformat s = FmtStr f ->
  _ScaledTextureMixin.is_normalized s = (Ok (negb (is_floating d)), s).
Proof.
  intros Hgl Hf. destruct (gl_format_last _ _ _ _ Hgl) as (c & Hc & Hfl).
  rewrite (is_normalized_run s f c Hf Hc), Hfl. reflexivity.
Qed.

Lemma is_normalized_of_resolved_witness :
  _ScaledTextureMixin.is_normalized gpu_rgb8 = (Ok (negb (is_floating (Int uint8))), gpu_rgb8).
Proof.
  apply (is_normalized_of_resolved wider_than_f32 (Int uint8) 3 "rgb8" gpu_rgb8);
    reflexivity.
Defined.

(** X7: on a format that is not normalized, [clim_normalized] hands
    back the two items of [clim] as they are: the stored pair, without
    any arithmetic; for [clim = 'auto'] the characters ['a'] and ['u'],
    without an error; and it raises [TypeError] when [clim] was never
    set. *)
Theorem clim_normalized_unnormalized (s : state) (f : string) (c : ascii) :
  internalformat s = FmtStr f ->
  str_last f = Some c ->
  (Ascii.eqb c "f" || Ascii.eqb c "i") = true ->
  _ScaledTextureMixin.clim_normalized s
  = match _clim s with
    | ClimPair cmin cmax => (Ok (PyNumber cmin, PyNumber cmax), s)
    | ClimAuto => (Ok (PyStr "a", PyStr "u"), s)
    | ClimUnset => (Raise TypeError, s)
    end.
Proof.
  intros Hf Hc Hfi.
  pose proof (is_normalized_run s f c Hf Hc) as Hn. rewrite Hfi in Hn. cbn [negb] in Hn.
  unfold _ScaledTextureMixin.clim_normalized, _ScaledTextureMixin.normalize_value,
    _ScaledTextureMixin.clim.
  destruct (_clim s) as [| | cmin cmax] eqn:Hclim;
    unfold bind, get, lift, ret; rewrite ?Hclim; cbn [_ScaledTextureMixin.clim_item];
    rewrite ?Hn; cbn [negb]; rewrite ?Hclim; cbn [_ScaledTextureMixin.clim_item];
    rewrite ?Hn; reflexivity.
Qed.

Lemma clim_normalized_unnormalized_witness :
  _ScaledTextureMixin.clim_normalized (with_clim ClimAuto gpu_r32f)
  = (Ok (PyStr "a", PyStr "u"), with_clim ClimAuto gpu_r32f).
Proof.
  apply (clim_normalized_unnormalized (with_clim ClimAuto gpu_r32f) "r32f" "f");
    reflexivity.
Defined.

Lemma normalize_bounds (d : idtype) :
  num_div (PyInt (iinfo_min d - iinfo_min d)) (PyInt (iinfo_max d - iinfo_min d))
    = Ok (PyFloat (S754_zero false)) /\
  num_div (PyInt (iinfo_max d - iinfo_min d)) (PyInt (iinfo_max d - iinfo_min d))
    = Ok (PyFloat f64_one).
Proof. destruct d; split; vm_compute; reflexivity. Qed.

Lemma clim_normalized_full_range s f c d :
  internalformat s = FmtStr f ->
  str_last f = Some c ->
  (Ascii.eqb c "f" || Ascii.eqb c "i") = false ->
  _data_dtype s = Some (Int d) ->
  _clim s = ClimPair (PyInt (iinfo_min d)) (PyInt (iinfo_max d)) ->
  _ScaledTextureMixin.clim_normalized s
  = (Ok (PyNumber (PyFloat (S754_zero false)), PyNumber (PyFloat f64_one)), s).
Proof.
  intros Hf Hc Hfi Hd Hclim.
  pose proof (is_normalized_run s f c Hf Hc) as Hn. rewrite Hfi in Hn. cbn [negb] in Hn.
  destruct (normalize_bounds d) as [H0 H1].
  unfold _ScaledTextureMixin.clim_normalized, _ScaledTextureMixin.normalize_value,
    _ScaledTextureMixin.clim.
  unfold bind, get, lift, ret. rewrite Hclim, Hd. cbn [_ScaledTextureMixin.clim_item Nat.eqb].
  rewrite Hn. cbn [negb _ScaledTextureMixin.iinfo_of iinfo _ScaledTextureMixin.py_sub num_sub].
  rewrite H0. rewrite Hn, Hclim, Hd.
  cbn [negb _ScaledTextureMixin.clim_item Nat.eqb _ScaledTextureMixin.iinfo_of iinfo
       _ScaledTextureMixin.py_sub num_sub].
  rewrite H1. reflexivity.
Qed.

(** X8: a multi-channel integer image uploaded to a GPU texture under
    [clim = 'auto'], with the internal format of its type in place,
    gets the whole range of its type as colour limits, and
    [clim_normalized] then returns exactly (0.0, 1.0), for every integer
    type of the table; the pixel values play no part and the array is
    uploaded as it is. *)
Theorem gpu_upload_rgb_normalized
    (should_cast_to_f32 : dtype -> bool) (s : state) (data : loc) (a : ndarray)
    (d : idtype) (n : nat) (f : string) (offset : option (list nat)) (copy : bool) :
  heap s !! data = Some a ->
  dtype_of a = Int d ->
  ndim a <> 2%nat -> shape_of a !! 2%nat = Some n -> n <> 1%nat ->
  resolved_format should_cast_to_f32 (_ndim s) a = Ok f ->
  internalformat s = FmtStr f ->
  _clim s = ClimAuto ->
  let s' := with_set_data_call (data, offset, copy)
              (with_clim (ClimPair (PyInt (iinfo_min d)) (PyInt (iinfo_max d)))
                 (with_data_dtype (Some (Int d)) s)) in
  GPUScaledTextureMixin.scale_and_set_data should_cast_to_f32 data offset copy s
    = (Ok tt, s') /\
  _ScaledTextureMixin.clim_normalized s'
    = (Ok (PyNumber (PyFloat (S754_zero false)), PyNumber (PyFloat f64_one)), s').
Proof.
  intros Hd Hdt Hnd Hsh Hn Hres Hf Hauto s'. split.
  - unfold GPUScaledTextureMixin.scale_and_set_data.
    rewrite (bind_ok _ _ _ _ _ (deref_some _ _ _ Hd)).
    unfold bind at 1. rewrite reformat_outcome, Hres, Hf, fmt_ne_same. cbn [negb].
    unfold bind at 1. unfold modify at 1. unfold bind at 1.
    destruct (gpu_compute_clim_2d (with_data_dtype (Some (dtype_of a)) s) a Hauto)
      as [_ Hmulti].
    rewrite (Hmulti n Hnd Hsh Hn).
    unfold _ScaledTextureMixin._get_default_clims. rewrite Hdt. cbn [is_floating iinfo rbind].
    reflexivity.
  - unfold resolved_format in Hres.
    destruct (channels_of (_ndim s) a) as [m |]; [| discriminate Hres]. cbn [rbind] in Hres.
    rewrite Hdt in Hres.
    destruct (gl_format_last _ _ _ _ Hres) as (c & Hc & Hfi).
    apply (clim_normalized_full_range s' f c d); [exact Hf | exact Hc | exact Hfi | |];
      reflexivity.
Qed.

Lemma gpu_upload_rgb_normalized_witness :
  let s' := with_set_data_call (0%nat, None, false)
              (with_clim (ClimPair (PyInt 0) (PyInt 255))
                 (with_data_dtype (Some (Int uint8)) (with_heap {[ 0%nat := rgb8 ]} (with_clim ClimAuto gpu_rgb8)))) in
  GPUScaledTextureMixin.scale_and_set_data wider_than_f32 0%nat None false
      (with_heap {[ 0%nat := rgb8 ]} (with_clim ClimAuto gpu_rgb8))
    = (Ok tt, s') /\
  _ScaledTextureMixin.clim_normalized s'
    = (Ok (PyNumber (PyFloat (S754_zero false)), PyNumber (PyFloat f64_one)), s').
Proof.
  refine (gpu_upload_rgb_normalized wider_than_f32
            (with_heap {[ 0%nat := rgb8 ]} (with_clim ClimAuto gpu_rgb8))
            0%nat rgb8 uint8 3 "rgb8" None false _ _ _ _ _ _ _ _);
    first [reflexivity | discriminate].
Defined.

(** X9: on a normalized format, [clim_normalized] needs an integer
    element type: while no data type is recorded, or the recorded type
    is a floating one, it raises [ValueError] ([np.iinfo] of a floating
    type) for every pair of colour limits, and leaves the state as it
    was. *)
Theorem clim_normalized_needs_integer_type (s : state) (f : string) (c : ascii) (cmin cmax : num) :
  internalformat s = FmtNone \/
    (internalformat s = FmtStr f /\ str_last f = Some c /\
     (Ascii.eqb c "f" || Ascii.eqb c "i") = false) ->
  _data_dtype s = None \/ (exists d, _data_dtype s = Some (Float d)) ->
  _clim s = ClimPair cmin cmax ->
  exists msg, _ScaledTextureMixin.clim_normalized s = (Raise (ValueError msg), s).
Proof.
  intros Hfmt Hd Hclim.
  assert (Hn : _ScaledTextureMixin.is_normalized s = (Ok true, s)).
  { destruct Hfmt as [Hnone | (Hf & Hc & Hfi)].
    - unfold _ScaledTextureMixin.is_normalized, bind, get, ret. rewrite Hnone. reflexivity.
    - rewrite (is_normalized_run s f c Hf Hc), Hfi. reflexivity. }
  exists "Invalid integer data type 'f'.".
  unfold _ScaledTextureMixin.clim_normalized, _ScaledTextureMixin.normalize_value,
    _ScaledTextureMixin.clim.
  unfold bind, get, lift, ret. rewrite Hclim. cbn [_ScaledTextureMixin.clim_item].
  rewrite Hn. cbn [negb].
  destruct Hd as [-> | [d ->]]; reflexivity.
Qed.

Lemma clim_normalized_needs_integer_type_witness :
  exists msg,
    _ScaledTextureMixin.clim_normalized (with_clim (ClimPair (PyInt 0) (PyInt 255)) gpu_rgb8)
    = (Raise (ValueError msg), with_clim (ClimPair (PyInt 0) (PyInt 255)) gpu_rgb8).
Proof.
  refine (clim_normalized_needs_integer_type
            (with_clim (ClimPair (PyInt 0) (PyInt 255)) gpu_rgb8) "rgb8" "8"
            (PyInt 0) (PyInt 255) _ _ _).
  - right. repeat split; reflexivity.
  - left. reflexivity.
  - reflexivity.
Defined.

(** ** Uploads of the CPU class: the outcome by cases *)

Lemma cpu_single_test s0 a nd :
  single_channel nd a ->
  (if Nat.eqb (ndim a) nd then ret true
   else n <- lift (shape_at a nd);; ret (Nat.eqb n 1)) s0 = (Ok true, s0).
Proof.
  intros Hsingle.
  destruct (Nat.eqb_spec (ndim a) nd) as [| Hne]; [reflexivity |].
  destruct Hsingle as [| Hsh]; [contradiction |].
  unfold lift, bind, ret, shape_at. rewrite Hsh. reflexivity.
Qed.

Lemma cpu_limits_run (c : climv) a (s0 : state) :
  match c with
  | ClimUnset => raise TypeError
  | ClimAuto =>
      lo <- lift (np_min a);;
      hi <- lift (np_max a);;
      ret (scalar_to_float32 lo, scalar_to_float32 hi)
  | ClimPair c0 c1 =>
      c0 <- lift (np_float32 c0);;
      c1 <- lift (np_float32 c1);;
      ret (c0, c1)
  end s0
  = (limits_of c a, s0).
Proof.
  unfold limits_of. destruct c as [| | c0 c1].
  - reflexivity.
  - unfold lift, bind, ret.
    destruct (np_min a) as [lo |]; [| reflexivity].
    destruct (np_max a) as [hi |]; reflexivity.
  - unfold lift, bind, ret.
    destruct (np_float32 c0) as [x |]; [| reflexivity].
    destruct (np_float32 c1) as [y |]; reflexivity.
Qed.

(** A single-channel upload: the element type is recorded first, then
    the limits are resolved, then the data is rescaled; the colour
    limits, the data limits and the upload follow only when all of
    that went through. *)
Lemma cpu_upload_single_outcome should_cast_to_f32 s data a offset copy :
  heap s !! data = Some a ->
  single_channel (_ndim s) a ->
  CPUScaledTextureMixIn.scale_and_set_data should_cast_to_f32 data offset copy s
  = let s0 := with_data_dtype (Some (dtype_of a)) s in
    match limits_of (_clim s) a with
    | Raise e => (Raise e, s0)
    | Ok clim =>
        match CPUScaledTextureMixIn._scale_data_on_cpu should_cast_to_f32 data clim copy s0 with
        | (Ok l, s1) =>
            (Ok tt, with_set_data_call (l, offset, copy)
                      (with_data_limits (Some (float32_pair clim))
                         (with_clim (clim_of clim) s1)))
        | (Raise e, s1) => (Raise e, s1)
        end
    end.
Proof.
  intros Hd Hsingle. cbv zeta.
  unfold CPUScaledTextureMixIn.scale_and_set_data.
  rewrite (bind_ok _ _ _ _ _ (deref_some _ _ _ Hd)).
  set (s0 := with_data_dtype (Some (dtype_of a)) s).
  unfold modify at 1, bind at 1. fold s0.
  unfold get at 1, bind at 1. unfold get at 1, bind at 1.
  change (_clim s0) with (_clim s). change (_ndim s0) with (_ndim s).
  rewrite (bind_ok _ _ _ _ _ (cpu_single_test s0 a (_ndim s) Hsingle)).
  cbv iota. unfold bind at 1. unfold bind at 1.
  rewrite cpu_limits_run.
  destruct (limits_of (_clim s) a) as [clim | e]; [| reflexivity].
  unfold bind at 1.
  destruct (CPUScaledTextureMixIn._scale_data_on_cpu should_cast_to_f32 data clim copy s0)
    as [[l | e] s1]; reflexivity.
Qed.

Lemma default_clims_total a :
  _ScaledTextureMixin._get_default_clims a
  = Ok (default_limits (dtype_of a)).
Proof.
  unfold _ScaledTextureMixin._get_default_clims. destruct (dtype_of a); reflexivity.
Qed.

Lemma cpu_upload_multi_run should_cast_to_f32 s data a n offset copy :
  heap s !! data = Some a ->
  ndim a <> _ndim s -> shape_of a !! _ndim s = Some n -> n <> 1%nat ->
  CPUScaledTextureMixIn.scale_and_set_data should_cast_to_f32 data offset copy s
  = (Ok tt, multi_uploaded s a (data, offset, copy)).
Proof.
  intros Hd Hnd Hsh Hn.
  unfold CPUScaledTextureMixIn.scale_and_set_data.
  rewrite (bind_ok _ _ _ _ _ (deref_some _ _ _ Hd)).
  set (s0 := with_data_dtype (Some (dtype_of a)) s).
  unfold modify at 1, bind at 1. fold s0.
  unfold get at 1, bind at 1. unfold get at 1, bind at 1.
  change (_clim s0) with (_clim s). change (_ndim s0) with (_ndim s).
  assert (Hs : (if Nat.eqb (ndim a) (_ndim s) then ret true
                else n <- lift (shape_at a (_ndim s));; ret (Nat.eqb n 1)) s0
               = (Ok false, s0)).
  { destruct (Nat.eqb_spec (ndim a) (_ndim s)) as [| _]; [contradiction |].
    unfold lift, bind, ret, shape_at. rewrite Hsh.
    destruct (Nat.eqb_spec n 1) as [| _]; [contradiction | reflexivity]. }
  rewrite (bind_ok _ _ _ _ _ Hs). cbv iota.
  unfold bind at 1. unfold bind at 1. unfold lift at 1.
  rewrite default_clims_total. reflexivity.
Qed.

(** X10: a multi-channel array goes to a CPU texture as it is: the
    upload never fails, whatever the element type and the colour
    limits, even when they were never set; nothing is rescaled or
    copied, the caller's reference is the one uploaded, the data limits
    become the defaults of the type ((0, 1) for a floating type, the
    whole range for an integer type) and colour limits other than
    ['auto'] stay as they are. *)
Theorem cpu_upload_multi_channel
    (should_cast_to_f32 : dtype -> bool) (s : state) (data : loc) (a : ndarray) (n : nat)
    (offset : option (list nat)) (copy : bool) :
  heap s !! data = Some a ->
  ndim a <> _ndim s -> shape_of a !! _ndim s = Some n -> n <> 1%nat ->
  exists s',
    CPUScaledTextureMixIn.scale_and_set_data should_cast_to_f32 data offset copy s
      = (Ok tt, s') /\
    heap s' = heap s /\
    set_data_calls s' = (set_data_calls s ++ [(data, offset, copy)])%list /\
    _data_dtype s' = Some (dtype_of a) /\
    _data_limits s' = Some (default_limits (dtype_of a)) /\
    _clim s' = match _clim s with
               | ClimAuto => ClimPair (fst (default_limits (dtype_of a)))
                               (snd (default_limits (dtype_of a)))
               | _ => _clim s
               end.
Proof.
  intros Hd Hnd Hsh Hn. eexists. split.
  - apply (cpu_upload_multi_run _ _ _ _ _ _ _ Hd Hnd Hsh Hn).
  - repeat split.
Qed.

Lemma cpu_upload_multi_channel_witness :
  exists s',
    CPUScaledTextureMixIn.scale_and_set_data wider_than_f32 0%nat None true
        (with_heap {[ 0%nat := rgb8 ]} (new_object 2))
      = (Ok tt, s') /\
    heap s' = heap (with_heap {[ 0%nat := rgb8 ]} (new_object 2)) /\
    set_data_calls s' = [(0%nat, None, true)] /\
    _data_dtype s' = Some (Int uint8) /\
    _data_limits s' = Some (PyInt 0, PyInt 255) /\
    _clim s' = ClimUnset.
Proof.
  refine (cpu_upload_multi_channel wider_than_f32
            (with_heap {[ 0%nat := rgb8 ]} (new_object 2)) 0%nat rgb8 3 None true _ _ _ _);
    first [reflexivity | discriminate].
Defined.

Lemma clim_normalized_defaults s d :
  _data_limits s = Some (default_limits d) ->
  _clim s = ClimPair (fst (default_limits d)) (snd (default_limits d)) ->
  CPUScaledTextureMixIn.clim_normalized s
  = (Ok (PyFloat (S754_zero false), PyFloat f64_one), s).
Proof.
  intros Hl Hc. unfold CPUScaledTextureMixIn.clim_normalized.
  unfold bind, get, lift, ret. rewrite Hl.
  destruct d as [d | d]; cbn [default_limits fst snd] in *; rewrite Hc.
  - cbn [num_sub]. destruct (normalize_bounds d) as [-> ->]. reflexivity.
  - vm_compute. reflexivity.
Qed.

(** X17: after a multi-channel array was uploaded to a CPU texture
    under [clim = 'auto'], [clim_normalized] is exactly (0.0, 1.0), for
    every element type and whatever the pixel values: the colour limits
    and the data limits are both the defaults of the type. *)
Theorem cpu_upload_multi_then_normalized
    (should_cast_to_f32 : dtype -> bool) (s : state) (data : loc) (a : ndarray) (n : nat)
    (offset : option (list nat)) (copy : bool) :
  heap s !! data = Some a ->
  ndim a <> _ndim s -> shape_of a !! _ndim s = Some n -> n <> 1%nat ->
  _clim s = ClimAuto ->
  exists s',
    CPUScaledTextureMixIn.scale_and_set_data should_cast_to_f32 data offset copy s
      = (Ok tt, s') /\
    CPUScaledTextureMixIn.clim_normalized s'
      = (Ok (PyFloat (S754_zero false), PyFloat f64_one), s').
Proof.
  intros Hd Hnd Hsh Hn Hauto. eexists. split.
  - apply (cpu_upload_multi_run _ _ _ _ _ _ _ Hd Hnd Hsh Hn).
  - apply (clim_normalized_defaults _ (dtype_of a)); [reflexivity |].
    cbn. rewrite Hauto. reflexivity.
Qed.

Lemma cpu_upload_multi_then_normalized_witness :
  exists s',
    CPUScaledTextureMixIn.scale_and_set_data wider_than_f32 0%nat None true
        (with_heap {[ 0%nat := rgb8 ]} (with_clim ClimAuto (new_object 2)))
      = (Ok tt, s') /\
    CPUScaledTextureMixIn.clim_normalized s'
      = (Ok (PyFloat (S754_zero false), PyFloat f64_one), s').
Proof.
  refine (cpu_upload_multi_then_normalized wider_than_f32
            (with_heap {[ 0%nat := rgb8 ]} (with_clim ClimAuto (new_object 2)))
            0%nat rgb8 3 None true _ _ _ _ _);
    first [reflexivity | discriminate].
Defined.

(** ** Uploads of the CPU class without a copy *)

Lemma scale_data_on_cpu_inplace should_cast_to_f32 s data a clim b :
  heap s !! data = Some a ->
  is_floating (dtype_of a) = true ->
  rescaled clim a = Ok b ->
  CPUScaledTextureMixIn._scale_data_on_cpu should_cast_to_f32 data clim false s
  = let h := <[data := b]> (heap s) in
    if should_cast_to_f32 (dtype_of b) then
      (Ok (fresh (dom h)), with_heap (<[fresh (dom h) := as_float32 b]> h) s)
    else (Ok data, with_heap h s).
Proof.
  intros Hd Hf Hr. cbv zeta. unfold CPUScaledTextureMixIn._scale_data_on_cpu.
  rewrite (bind_ok _ _ _ _ _ (deref_some _ _ _ Hd)).
  rewrite Hf. cbn [negb]. unfold ret at 1. unfold bind at 1.
  rewrite (bind_ok _ _ _ _ _ (scale_step_run _ _ _ _ _ Hd Hr)).
  set (s2 := with_heap (<[data := b]> (heap s)) s).
  assert (H2 : heap s2 !! data = Some b) by apply lookup_insert_eq.
  rewrite (bind_ok _ _ _ _ _ (deref_some _ _ _ H2)).
  destruct (should_cast_to_f32 (dtype_of b)); reflexivity.
Qed.

(** X11: with [copy=False] a floating single-channel array is rescaled
    in place: after the upload the caller's own array holds the
    rescaled values, in its own precision. When no downcast to float32
    is needed the reference uploaded is the caller's; otherwise a new
    float32 array made from the rescaled one is uploaded, and the
    caller's array is rescaled all the same. *)
Theorem cpu_upload_in_place
    (should_cast_to_f32 : dtype -> bool) (s : state) (data : loc) (a : ndarray)
    (offset : option (list nat)) (clim : spec_float * spec_float) :
  heap s !! data = Some a ->
  is_floating (dtype_of a) = true ->
  single_channel (_ndim s) a ->
  limits_of (_clim s) a = Ok clim ->
  exists b l h,
    rescaled clim a = Ok b /\ dtype_of b = dtype_of a /\
    CPUScaledTextureMixIn.scale_and_set_data should_cast_to_f32 data offset false s
      = (Ok tt, uploaded s a clim h (l, offset, false)) /\
    h !! data = Some b /\
    (should_cast_to_f32 (dtype_of a) = false -> l = data /\ h = <[data := b]> (heap s)) /\
    (should_cast_to_f32 (dtype_of a) = true -> l <> data /\ h !! l = Some (as_float32 b)).
Proof.
  intros Hd Hf Hsingle Hlim.
  destruct (rescaled_float clim a Hf) as (b & Hb & Hdt).
  pose proof (cpu_upload_single_outcome should_cast_to_f32 s data a offset false Hd Hsingle)
    as Hrun.
  cbv zeta in Hrun. rewrite Hlim in Hrun.
  rewrite (scale_data_on_cpu_inplace should_cast_to_f32
             (with_data_dtype (Some (dtype_of a)) s) data a clim b Hd Hf Hb) in Hrun.
  cbv zeta in Hrun. rewrite Hdt in Hrun.
  set (h := <[data := b]> (heap s)) in *.
  assert (Hhb : h !! data = Some b) by apply lookup_insert_eq.
  exists b. destruct (should_cast_to_f32 (dtype_of a)) eqn:Hcast.
  - exists (fresh (dom h)), (<[fresh (dom h) := as_float32 b]> h).
    pose proof (fresh_loc_ne _ _ _ Hhb) as Hne.
    split; [exact Hb |]. split; [exact Hdt |]. split; [exact Hrun |]. split.
    + rewrite lookup_insert_ne by exact Hne. exact Hhb.
    + split; [discriminate |]. intros _. split; [exact Hne | apply lookup_insert_eq].
  - exists data, h.
    split; [exact Hb |]. split; [exact Hdt |]. split; [exact Hrun |]. split; [exact Hhb |].
    split; [intros _; split; reflexivity | discriminate].
Qed.

Lemma cpu_upload_in_place_witness :
  exists b l h,
    rescaled (f32 5, f32 7) image32 = Ok b /\ dtype_of b = dtype_of image32 /\
    CPUScaledTextureMixIn.scale_and_set_data wider_than_f32 0%nat None false auto_with_image32
      = (Ok tt, uploaded auto_with_image32 image32 (f32 5, f32 7) h (l, None, false)) /\
    h !! 0%nat = Some b /\
    (wider_than_f32 (dtype_of image32) = false ->
     l = 0%nat /\ h = <[0%nat := b]> (heap auto_with_image32)) /\
    (wider_than_f32 (dtype_of image32) = true -> l <> 0%nat /\ h !! l = Some (as_float32 b)).
Proof.
  refine (cpu_upload_in_place wider_than_f32 auto_with_image32 0%nat image32 None
            (f32 5, f32 7) _ _ _ _).
  - reflexivity.
  - reflexivity.
  - left. reflexivity.
  - vm_compute. reflexivity.
Defined.

(** X12: an integer single-channel array cannot be uploaded to a CPU
    texture with [copy=False]: whenever its limits can be resolved the
    upload raises [ValueError], nothing is uploaded and the array, the
    colour limits and the data limits are as before; the element type of
    the rejected array is recorded all the same. *)
Theorem cpu_upload_integer_no_copy
    (should_cast_to_f32 : dtype -> bool) (s : state) (data : loc) (a : ndarray)
    (offset : option (list nat)) (clim : spec_float * spec_float) :
  heap s !! data = Some a ->
  is_floating (dtype_of a) = false ->
  single_channel (_ndim s) a ->
  limits_of (_clim s) a = Ok clim ->
  CPUScaledTextureMixIn.scale_and_set_data should_cast_to_f32 data offset false s
  = (Raise (ValueError CPUScaledTextureMixIn.msg_no_copy),
     with_data_dtype (Some (dtype_of a)) s).
Proof.
  intros Hd Hf Hsingle Hlim.
  rewrite (cpu_upload_single_outcome should_cast_to_f32 s data a offset false Hd Hsingle).
  cbv zeta. rewrite Hlim.
  unfold CPUScaledTextureMixIn._scale_data_on_cpu.
  rewrite (bind_ok _ _ _ _ _
             (deref_some data a (with_data_dtype (Some (dtype_of a)) s) Hd)).
  rewrite Hf. reflexivity.
Qed.

Lemma cpu_upload_integer_no_copy_witness :
  CPUScaledTextureMixIn.scale_and_set_data wider_than_f32 0%nat None false auto_with_image16
  = (Raise (ValueError CPUScaledTextureMixIn.msg_no_copy),
     with_data_dtype (Some (dtype_of image16)) auto_with_image16).
Proof.
  refine (cpu_upload_integer_no_copy wider_than_f32 auto_with_image16 0%nat image16 None
            (f32 (-100), f32 500) _ _ _ _).
  - reflexivity.
  - reflexivity.
  - left. reflexivity.
  - vm_compute. reflexivity.
Defined.

(** X13: a single-channel upload to a CPU texture needs colour
    limits: while [clim] was never set it raises [TypeError]; nothing is
    uploaded or rescaled, and only the recorded element type has
    changed. (A multi-channel upload goes through in the same state.) *)
Theorem cpu_upload_without_limits
    (should_cast_to_f32 : dtype -> bool) (s : state) (data : loc) (a : ndarray)
    (offset : option (list nat)) (copy : bool) :
  heap s !! data = Some a ->
  single_channel (_ndim s) a ->
  _clim s = ClimUnset ->
  CPUScaledTextureMixIn.scale_and_set_data should_cast_to_f32 data offset copy s
  = (Raise TypeError, with_data_dtype (Some (dtype_of a)) s).
Proof.
  intros Hd Hsingle Hc.
  rewrite (cpu_upload_single_outcome should_cast_to_f32 s data a offset copy Hd Hsingle).
  cbv zeta. rewrite Hc. reflexivity.
Qed.

Lemma cpu_upload_without_limits_witness :
  CPUScaledTextureMixIn.scale_and_set_data wider_than_f32 0%nat None true
    (with_heap {[ 0%nat := image16 ]} (new_object 2))
  = (Raise TypeError,
     with_data_dtype (Some (dtype_of image16))
       (with_heap {[ 0%nat := image16 ]} (new_object 2))).
Proof.
  refine (cpu_upload_without_limits wider_than_f32
            (with_heap {[ 0%nat := image16 ]} (new_object 2)) 0%nat image16 None true _ _ _).
  - reflexivity.
  - left. reflexivity.
  - reflexivity.
Defined.

(** X25: an array without elements cannot be uploaded to a CPU texture
    under [clim = 'auto']: the single-channel upload raises the
    [ValueError] of [np.min] on a zero-size array, with nothing
    uploaded and only the recorded element type changed. *)
Theorem cpu_upload_empty_array
    (should_cast_to_f32 : dtype -> bool) (s : state) (data : loc) (a : ndarray)
    (offset : option (list nat)) (copy : bool) :
  heap s !! data = Some a ->
  single_channel (_ndim s) a ->
  _clim s = ClimAuto ->
  size a = 0%nat ->
  CPUScaledTextureMixIn.scale_and_set_data should_cast_to_f32 data offset copy s
  = (Raise zero_size, with_data_dtype (Some (dtype_of a)) s).
Proof.
  intros Hd Hsingle Hc Hempty.
  rewrite (cpu_upload_single_outcome should_cast_to_f32 s data a offset copy Hd Hsingle).
  cbv zeta. rewrite Hc.
  destruct a as [d sh [| x l] | d sh [| x l]]; cbn in Hempty;
    first [discriminate | reflexivity].
Qed.

Lemma cpu_upload_empty_array_witness :
  CPUScaledTextureMixIn.scale_and_set_data wider_than_f32 0%nat None true
    (with_heap {[ 0%nat := empty32 ]} (with_clim ClimAuto (new_object 2)))
  = (Raise zero_size,
     with_data_dtype (Some (dtype_of empty32))
       (with_heap {[ 0%nat := empty32 ]} (with_clim ClimAuto (new_object 2)))).
Proof.
  refine (cpu_upload_empty_array wider_than_f32
            (with_heap {[ 0%nat := empty32 ]} (with_clim ClimAuto (new_object 2)))
            0%nat empty32 None true _ _ _ _).
  - reflexivity.
  - left. reflexivity.
  - reflexivity.
  - reflexivity.
Defined.

(** X14: an array of lower rank than the texture has neither the
    texture's rank nor an axis to test for a single channel: the upload
    to a CPU texture raises [IndexError], with nothing uploaded and only
    the recorded element type changed. *)
Theorem cpu_upload_rank_too_low
    (should_cast_to_f32 : dtype -> bool) (s : state) (data : loc) (a : ndarray)
    (offset : option (list nat)) (copy : bool) :
  heap s !! data = Some a ->
  (ndim a < _ndim s)%nat ->
  CPUScaledTextureMixIn.scale_and_set_data should_cast_to_f32 data offset copy s
  = (Raise IndexError, with_data_dtype (Some (dtype_of a)) s).
Proof.
  intros Hd Hlt.
  unfold CPUScaledTextureMixIn.scale_and_set_data.
  rewrite (bind_ok _ _ _ _ _ (deref_some _ _ _ Hd)).
  set (s0 := with_data_dtype (Some (dtype_of a)) s).
  unfold modify at 1, bind at 1. fold s0.
  unfold get at 1, bind at 1. unfold get at 1, bind at 1.
  change (_ndim s0) with (_ndim s).
  destruct (Nat.eqb_spec (ndim a) (_ndim s)) as [Heq | _]; [lia |].
  unfold bind, lift, shape_at.
  rewrite (proj2 (lookup_ge_None (shape_of a) (_ndim s))); [reflexivity |].
  unfold ndim in Hlt. lia.
Qed.

Lemma cpu_upload_rank_too_low_witness :
  CPUScaledTextureMixIn.scale_and_set_data wider_than_f32 0%nat None true
    (with_heap {[ 0%nat := image16 ]} (with_clim ClimAuto (new_object 3)))
  = (Raise IndexError,
     with_data_dtype (Some (dtype_of image16))
       (with_heap {[ 0%nat := image16 ]} (with_clim ClimAuto (new_object 3)))).
Proof.
  refine (cpu_upload_rank_too_low wider_than_f32
            (with_heap {[ 0%nat := image16 ]} (with_clim ClimAuto (new_object 3)))
            0%nat image16 None true _ _).
  - reflexivity.
  - cbn. lia.
Defined.

(** ** [set_clim] and [clim_normalized] of the CPU class *)

Lemma xcompare_refl_not_lt v : xcompare v v <> Some Lt.
Proof.
  destruct v as [| [|] | m e]; cbn; try discriminate.
  rewrite Z.compare_refl. discriminate.
Qed.

Lemma num_lt_irrefl x : num_lt x x = false.
Proof.
  unfold num_lt, num_compare.
  pose proof (xcompare_refl_not_lt (compared x x)) as H.
  destruct (xcompare (compared x x) (compared x x)) as [[| |] |]; congruence.
Qed.

(** X15: setting the colour limits of a CPU texture to the very limits
    recorded from the last upload never asks for a new upload, whatever
    they are (a NaN among them included); the pair is stored. *)
Theorem set_clim_to_data_limits (s : state) (lo hi : num) :
  _data_limits s = Some (lo, hi) ->
  CPUScaledTextureMixIn.set_clim (PySeq [lo; hi]) s
  = (Ok false, with_clim (ClimPair lo hi) s).
Proof.
  intros Hl. unfold CPUScaledTextureMixIn.set_clim. cbn [unpack2].
  unfold CPUScaledTextureMixIn._clim_outside_data_limits, bind, get, ret, modify.
  rewrite Hl. unfold num_gt. rewrite !num_lt_irrefl. reflexivity.
Qed.

Lemma set_clim_to_data_limits_witness :
  CPUScaledTextureMixIn.set_clim (PySeq [PyInt 0; PyInt 255])
    (with_data_limits (Some (PyInt 0, PyInt 255)) (new_object 2))
  = (Ok false,
     with_clim (ClimPair (PyInt 0) (PyInt 255))
       (with_data_limits (Some (PyInt 0, PyInt 255)) (new_object 2))).
Proof.
  apply (set_clim_to_data_limits
           (with_data_limits (Some (PyInt 0, PyInt 255)) (new_object 2)) (PyInt 0) (PyInt 255)).
  reflexivity.
Defined.



(** ** Element types and format strings the GPU class does not resolve *)

(** X21: an array whose element type has no entry in
    [_texture_dtype_format] (uint32, int32) is refused by a GPU texture
    everywhere with the same [ValueError]: by an upload and by
    [check_data_format], which both leave the texture as it was, and by
    a construction with ['auto']. *)
Theorem gpu_unsupported_type
    (should_cast_to_f32 : dtype -> bool) (s : state) (data : loc) (a : ndarray)
    (offset : option (list nat)) (copy : bool) :
  heap s !! data = Some a ->
  GPUScaledTextureMixin.dict_get (dtype_of a) GPUScaledTextureMixin._texture_dtype_format
    = None ->
  let e := ValueError (GPUScaledTextureMixin.msg_no_format (dtype_of a)) in
  GPUScaledTextureMixin.scale_and_set_data should_cast_to_f32 data offset copy s
    = (Raise e, s) /\
  GPUScaledTextureMixin.check_data_format should_cast_to_f32 a s = (Raise e, s) /\
  fst (GPUScaledTextureMixin.__init__ should_cast_to_f32 (Some a) None (FmtStr "auto") s)
    = Raise e.
Proof.
  intros Hd Hnone e.
  destruct (channels_of_ok (_ndim s) a) as [n Hn].
  assert (Hgl : GPUScaledTextureMixin._get_gl_tex_format should_cast_to_f32
                  (FmtType (dtype_of a)) n = Raise e).
  { unfold GPUScaledTextureMixin._get_gl_tex_format. cbn [negb andb
      GPUScaledTextureMixin.truthy GPUScaledTextureMixin.is_str].
    rewrite Hnone. reflexivity. }
  assert (Hres : resolved_format should_cast_to_f32 (_ndim s) a = Raise e).
  { unfold resolved_format. rewrite Hn. exact Hgl. }
  split; [| split].
  - unfold GPUScaledTextureMixin.scale_and_set_data.
    rewrite (bind_ok _ _ _ _ _ (deref_some _ _ _ Hd)).
    unfold bind at 1. rewrite reformat_outcome, Hres. reflexivity.
  - rewrite check_outcome, Hres. reflexivity.
  - rewrite (gpu_init_auto_run should_cast_to_f32 s a n Hn). cbv zeta.
    rewrite Hgl. reflexivity.
Qed.

Lemma gpu_unsupported_type_witness :
  let s := with_heap {[ 0%nat := image_u32 ]} gpu_r32f in
  let e := ValueError (GPUScaledTextureMixin.msg_no_format (dtype_of image_u32)) in
  GPUScaledTextureMixin.scale_and_set_data wider_than_f32 0%nat None false s = (Raise e, s) /\
  GPUScaledTextureMixin.check_data_format wider_than_f32 image_u32 s = (Raise e, s) /\
  fst (GPUScaledTextureMixin.__init__ wider_than_f32 (Some image_u32) None (FmtStr "auto") s)
    = Raise e.
Proof.
  refine (gpu_unsupported_type wider_than_f32 (with_heap {[ 0%nat := image_u32 ]} gpu_r32f)
            0%nat image_u32 None false _ _); reflexivity.
Defined.




(** ** Round trips of the colour limits *)

(** X23: a floating single-channel image uploaded to a 2-D GPU texture
    under [clim = 'auto'], with the internal format of its type in
    place, is uploaded as it is; the colour limits become its minimum
    and maximum converted to float32, and [clim_normalized] hands these
    back unchanged, because the floating formats are not normalized. *)
Theorem gpu_upload_float_then_normalized
    (should_cast_to_f32 : dtype -> bool) (s : state) (data : loc) (a : ndarray)
    (d : fdtype) (f : string) (lo hi : scalar) (offset : option (list nat)) (copy : bool) :
  heap s !! data = Some a ->
  dtype_of a = Float d ->
  single_channel 2 a ->
  np_min a = Ok lo -> np_max a = Ok hi ->
  resolved_format should_cast_to_f32 (_ndim s) a = Ok f ->
  internalformat s = FmtStr f ->
  _clim s = ClimAuto ->
  let lo32 := NpFloat float32 (scalar_to_float32 lo) in
  let hi32 := NpFloat float32 (scalar_to_float32 hi) in
  let s' := with_set_data_call (data, offset, copy)
              (with_clim (ClimPair lo32 hi32) (with_data_dtype (Some (Float d)) s)) in
  GPUScaledTextureMixin.scale_and_set_data should_cast_to_f32 data offset copy s
    = (Ok tt, s') /\
  _ScaledTextureMixin.clim_normalized s' = (Ok (PyNumber lo32, PyNumber hi32), s').
Proof.
  intros Hd Hdt Hsingle Hlo Hhi Hres Hf Hauto lo32 hi32 s'. split.
  - unfold GPUScaledTextureMixin.scale_and_set_data.
    rewrite (bind_ok _ _ _ _ _ (deref_some _ _ _ Hd)).
    unfold bind at 1. rewrite reformat_outcome, Hres, Hf, fmt_ne_same. cbn [negb].
    unfold bind at 1. unfold modify at 1. unfold bind at 1.
    destruct (gpu_compute_clim_2d (with_data_dtype (Some (dtype_of a)) s) a Hauto)
      as [Hone _].
    rewrite (Hone lo hi Hsingle Hlo Hhi). rewrite Hdt. reflexivity.
  - unfold resolved_format in Hres.
    destruct (channels_of (_ndim s) a) as [m |]; [| discriminate Hres]. cbn [rbind] in Hres.
    rewrite Hdt in Hres.
    destruct (gl_format_last _ _ _ _ Hres) as (c & Hc & Hfi).
    pose proof (is_normalized_run s' f c Hf Hc) as Hn. rewrite Hfi in Hn.
    unfold _ScaledTextureMixin.clim_normalized, _ScaledTextureMixin.normalize_value,
      _ScaledTextureMixin.clim.
    unfold bind, get, lift, ret. cbn [_clim s' with_set_data_call with_clim
      _ScaledTextureMixin.clim_item Nat.eqb]. rewrite Hn. cbn [negb is_floating].
    rewrite Hn. reflexivity.
Qed.

Lemma gpu_upload_float_then_normalized_witness :
  let s := with_heap {[ 0%nat := image32 ]} (with_clim ClimAuto gpu_r32f) in
  let s' := with_set_data_call (0%nat, None, false)
              (with_clim (ClimPair (NpFloat float32 (f32 5)) (NpFloat float32 (f32 7)))
                 (with_data_dtype (Some (Float float32)) s)) in
  GPUScaledTextureMixin.scale_and_set_data wider_than_f32 0%nat None false s = (Ok tt, s') /\
  _ScaledTextureMixin.clim_normalized s'
    = (Ok (PyNumber (NpFloat float32 (f32 5)), PyNumber (NpFloat float32 (f32 7))), s').
Proof.
  refine (gpu_upload_float_then_normalized wider_than_f32
            (with_heap {[ 0%nat := image32 ]} (with_clim ClimAuto gpu_r32f))
            0%nat image32 float32 "r32f" (FloatScalar float32 (f32 5))
            (FloatScalar float32 (f32 7)) None false _ _ _ _ _ _ _ _);
    first [reflexivity | left; reflexivity | vm_compute; reflexivity].
Defined.

(** X24: [set_clim('auto')] on a CPU texture always asks for a new
    upload, and until that upload happens [clim_normalized] cannot be
    read: it raises [ValueError] when data limits are recorded (the
    string does not unpack into two values) and [TypeError] when there
    are none. *)
Theorem cpu_auto_pending_upload (s : state) :
  let s' := with_clim ClimAuto s in
  CPUScaledTextureMixIn.set_clim (PyStr "auto") s = (Ok true, s') /\
  CPUScaledTextureMixIn.clim_normalized s'
  = (Raise (match _data_limits s with
            | Some _ => ValueError "too many values to unpack (expected 2)"
            | None => TypeError
            end), s').
Proof.
  split; [reflexivity |].
  unfold CPUScaledTextureMixIn.clim_normalized, bind, get.
  cbn [_data_limits with_clim _clim].
  destruct (_data_limits s) as [[lo hi] |]; reflexivity.
Qed.
